(** * leprechaun/charts.go: candles, chart navigation and pattern detection

    A shallow embedding of the candlestick part of the [leprechaun] package
    ([charts.go]) and the properties of its candle construction, navigation,
    trend scoring and pattern recording.

    Conventions of the embedding:
    - [float64] is Rocq's primitive binary64 float ([PrimFloat]); Go's [>] is
      [ltb] with its arguments swapped.
    - Go's [int] is [Z], 64 bits wide; where the source adds or subtracts,
      the wrap-around is written with [wrap].
    - A Go call either returns or panics ([outcome]); an [error] result is an
      ordinary returned value, kept next to the other results as in Go.
    - The two pattern lists of a chart are Go slices: a header over a backing
      array that lives in a store shared by every copy of the header. *)

From Stdlib Require Import ZArith Lia Floats.
From stdpp Require Import base option list strings gmap.

Local Open Scope Z_scope.

(** ** The Go runtime, as far as [charts.go] uses it *)

Definition min_int : Z := - 2 ^ 63.
Definition max_int : Z := 2 ^ 63 - 1.

(** Two's complement wrap-around of a 64-bit [int]. *)
Definition wrap (z : Z) : Z := (z + 2 ^ 63) mod 2 ^ 64 - 2 ^ 63.

Definition in_int (z : Z) : Prop := min_int <= z <= max_int.

(** [len(a)] *)
Definition len {A} (a : list A) : Z := Z.of_nat (length a).

(** The run-time panics of indexing and slicing. *)
Inductive panic : Type :=
  | IndexOutOfRange (i n : Z)          (* index out of range [i] with length n *)
  | SliceBoundsOutOfRange (lo hi : Z). (* slice bounds out of range [lo:hi] *)

(** How a call ends: it returns its results, or it panics. *)
Inductive outcome (A : Type) : Type :=
  | Return (a : A)
  | Panicked (p : panic).
Arguments Return {A} a.
Arguments Panicked {A} p.

#[export] Instance outcome_ret : MRet outcome := fun _ a => Return a.
#[export] Instance outcome_bind : MBind outcome := fun _ _ f m =>
  match m with
  | Return a => f a
  | Panicked p => Panicked p
  end.

(** [a[i]] *)
Definition index {A} (a : list A) (i : Z) : outcome A :=
  if i <? 0 then Panicked (IndexOutOfRange i (len a))
  else match a !! Z.to_nat i with
       | Some x => Return x
       | None => Panicked (IndexOutOfRange i (len a))
       end.

(** [a[lo:hi]] with [hi <= cap(a)], the only form the source uses. *)
Definition slice_expr {A} (a : list A) (lo hi : Z) : outcome (list A) :=
  if (lo <? 0) || (hi <? lo) then Panicked (SliceBoundsOutOfRange lo hi)
  else Return (take (Z.to_nat (hi - lo)) (drop (Z.to_nat lo) a)).

(** The only error value the package declares. *)
Inductive error : Type := ErrLastCandle.

(** [err != ErrLastCandle] *)
Definition not_ErrLastCandle (err : option error) : bool :=
  match err with
  | Some ErrLastCandle => false
  | None => true
  end.

(** *** float64 *)

Notation "a >? b" := (PrimFloat.ltb b a) (at level 70, no associativity) : float_scope.

(** The integer part of a finite float with a negative exponent, rounded
    towards minus infinity: the value is [(-1)^s * m * 2^e]. *)
Definition floorZ (s : bool) (m : positive) (e : Z) : Z :=
  if s then - ((Z.pos m + 2 ^ (- e) - 1) / 2 ^ (- e))
  else Z.pos m / 2 ^ (- e).

(** [math.Floor]: the greatest integer value not above [x]; zeros,
    infinities and NaN are returned as they are. *)
Definition Floor (x : float) : float :=
  match Prim2SF x with
  | S754_finite s m e =>
      if 0 <=? e then x
      else SF2Prim (binary_normalize prec emax (floorZ s m e) 0 s)
  | _ => x
  end.

(** *** time.Time and time.Duration *)

(** A [time.Duration] is a count of nanoseconds; a [time.Time] is taken as
    the nanoseconds elapsed since the zero time. *)
Definition time_Duration : Type := Z.
Definition time_Time : Type := Z.
Definition Minute : time_Duration := 60 * 1000000000.
Definition Hour : time_Duration := 60 * Minute.

(** [t.Truncate(d)] *)
Definition Truncate (t : time_Time) (d : time_Duration) : time_Time :=
  if d <=? 0 then t else t - t mod d.

(** *** Slices over shared backing arrays *)

(** A slice header: the backing array it points into, the offset of its
    first element there, its length and its capacity. *)
Record slice : Type := Slice {
  s_arr : nat;
  s_off : nat;
  s_len : nat;
  s_cap : nat
}.

(** The store of backing arrays of one element type; an array's address is
    its position. *)
Abbreviation arrays A := (list (list A)).

(** [[]T{}]: length and capacity zero, no array behind it. *)
Definition empty_slice : slice := Slice 0 0 0 0.

(** The elements a slice header shows. *)
Definition elems {A} (h : arrays A) (s : slice) : list A :=
  take (s_len s) (drop (s_off s) (default [] (h !! s_arr s))).

Section Append.
(** The capacity the runtime picks when [append] has to grow a slice of
    capacity [c]; Go only promises that the new element fits. *)
Variable growslice : nat -> nat.

Definition newcap (s : slice) : nat := Nat.max (S (s_len s)) (growslice (s_cap s)).

(** [append(s, x)]: with spare capacity the element is written into the
    shared backing array right after the slice's last element; without,
    the elements move to a new array. Either way the result is a new
    header, and the header [s] itself is not changed. *)
Definition append {A} (zero : A) (h : arrays A) (s : slice) (x : A)
  : arrays A * slice :=
  if decide (s_len s < s_cap s)%nat then
    (alter (fun a => <[(s_off s + s_len s)%nat := x]> a) (s_arr s) h,
     Slice (s_arr s) (s_off s) (S (s_len s)) (s_cap s))
  else
    (h ++ [elems h s ++ x :: replicate (newcap s - S (s_len s)) zero],
     Slice (length h) 0 (S (s_len s)) (newcap s)).
End Append.

(** A header is well formed in a store when its length is within its
    capacity and, unless the capacity is zero, its capacity lies inside an
    allocated array. *)
Definition wf_slice {A} (h : arrays A) (s : slice) : Prop :=
  (s_len s <= s_cap s)%nat /\
  (s_cap s = 0%nat \/
   exists a, h !! s_arr s = Some a /\ (s_off s + s_cap s <= length a)%nat).

(** ** The data model *)

(** [ChartTrend] is a string type with three named values. *)
Definition ChartTrend : Type := string.
Definition Bullish : ChartTrend := "Bullish".
Definition Bearish : ChartTrend := "Bearish".
Definition Indifferent : ChartTrend := "Indifferent".

(** The two pattern enumerations, in the order of their [iota] blocks. *)
Inductive BullishCandlestickPattern : Type :=
  | BullishEngulfingPattern
  | BullishMorningStar
  | MorningDojiStar
  | BullishHarami
  | BullishHaramiCross
  | BullishRisingThree
  | BullishRisingTwo
  | BullishKeyReversal
  | BullishGenericPattern.

Inductive BearishCandlestickPattern : Type :=
  | BearishEngulfingPattern
  | BearishEveningStar
  | EveningDojiStar
  | BearishHarami
  | BearishHaramiCross
  | BearishFallingThree
  | BearishFallingTwo
  | BearishKeyReversal
  | BearishGenericPattern.

(** [BullishChartPattern] and [BearishChartPattern]: a pattern and the trend
    of the candles before it. *)
Record ChartPattern (K : Type) : Type := {
  Pattern : K;
  PreceedingTrend : ChartTrend
}.
Arguments Build_ChartPattern {K} _ _.
Arguments Pattern {K} _.
Arguments PreceedingTrend {K} _.

Definition BullishChartPattern : Type := ChartPattern BullishCandlestickPattern.
Definition BearishChartPattern : Type := ChartPattern BearishCandlestickPattern.

(** The zero values that fill the spare capacity of a backing array. *)
Definition zero_bullish : BullishChartPattern :=
  {| Pattern := BullishEngulfingPattern; PreceedingTrend := "" |}.
Definition zero_bearish : BearishChartPattern :=
  {| Pattern := BearishEngulfingPattern; PreceedingTrend := "" |}.

(** [OHLC]: one candle. [Prices] is a pointer in the source, nil in the
    zero value. *)
Record OHLC : Type := {
  Open : float;
  High : float;
  Low : float;
  Close : float;
  Range : float;
  percentChange : float;
  Period : time_Duration;
  Time : time_Time;
  Trend : ChartTrend;
  Prices : option (list float);
  TotalVolume : float;
  Patterns : list N;
  UpperTail : float;
  LowerTail : float;
  ID : Z
}.

(** [OHLC{}] *)
Definition zero_OHLC : OHLC :=
  {| Open := 0; High := 0; Low := 0; Close := 0; Range := 0;
     percentChange := 0; Period := 0; Time := 0; Trend := "";
     Prices := None; TotalVolume := 0; Patterns := []; UpperTail := 0;
     LowerTail := 0; ID := 0 |}.

(** [candle.ID = i] *)
Definition set_ID (candle : OHLC) (i : Z) : OHLC :=
  {| Open := Open candle; High := High candle; Low := Low candle;
     Close := Close candle; Range := Range candle;
     percentChange := percentChange candle; Period := Period candle;
     Time := Time candle; Trend := Trend candle; Prices := Prices candle;
     TotalVolume := TotalVolume candle; Patterns := Patterns candle;
     UpperTail := UpperTail candle; LowerTail := LowerTail candle; ID := i |}.

(** [CandleChart]. The candles are never written after the chart is built,
    so they are a plain list; the two pattern lists are slice headers. *)
Record CandleChart : Type := {
  Candles : list OHLC;
  Length : Z;
  Start : time_Time;
  Stop : time_Time;
  Interval : time_Duration;
  MovingAverage : gmap string Z;
  MA30 : float;
  MA90 : float;
  Lines : float * float * float;
  MaxPatternCandles : Z;
  BullishPatterns : slice;
  BearishPatterns : slice
}.

(** [c.Candles = append(c.Candles, candle)] *)
Definition push_Candle (c : CandleChart) (candle : OHLC) : CandleChart :=
  {| Candles := Candles c ++ [candle]; Length := Length c; Start := Start c;
     Stop := Stop c; Interval := Interval c; MovingAverage := MovingAverage c;
     MA30 := MA30 c; MA90 := MA90 c; Lines := Lines c;
     MaxPatternCandles := MaxPatternCandles c;
     BullishPatterns := BullishPatterns c;
     BearishPatterns := BearishPatterns c |}.

(** [cht.BullishPatterns = s] *)
Definition set_BullishPatterns (c : CandleChart) (s : slice) : CandleChart :=
  {| Candles := Candles c; Length := Length c; Start := Start c;
     Stop := Stop c; Interval := Interval c; MovingAverage := MovingAverage c;
     MA30 := MA30 c; MA90 := MA90 c; Lines := Lines c;
     MaxPatternCandles := MaxPatternCandles c;
     BullishPatterns := s;
     BearishPatterns := BearishPatterns c |}.

(** [cht.BearishPatterns = s] *)
Definition set_BearishPatterns (c : CandleChart) (s : slice) : CandleChart :=
  {| Candles := Candles c; Length := Length c; Start := Start c;
     Stop := Stop c; Interval := Interval c; MovingAverage := MovingAverage c;
     MA30 := MA30 c; MA90 := MA90 c; Lines := Lines c;
     MaxPatternCandles := MaxPatternCandles c;
     BullishPatterns := BullishPatterns c;
     BearishPatterns := s |}.

(** ** Candle construction *)

(** [Max64]: the largest value of a list, 0 for the empty list. *)
Definition Max64 (a : list float) : float :=
  match a with
  | [] => 0%float
  | a0 :: _ => fold_left (fun max v => if (v >? max)%float then v else max) a a0
  end.

(** [Min64]: the smallest value of a list, 0 for the empty list. *)
Definition Min64 (a : list float) : float :=
  match a with
  | [] => 0%float
  | a0 :: _ => fold_left (fun min v => if (v <? min)%float then v else min) a a0
  end.

(** The two tails of a candle, by the [switch] on its trend. *)
Definition tails (trend : ChartTrend) (open high low close : float)
  : float * float :=
  if String.eqb trend Bullish then ((high - close)%float, (open - low)%float)
  else if String.eqb trend Bearish then ((high - open)%float, (close - low)%float)
  else (0%float, 0%float).

(** [doOHLC]: the candle of a list of prices. Indexing the last price comes
    first and panics when there is none. *)
Definition doOHLC (startTime : time_Time) (prices : list float) (volume : float)
  : outcome OHLC :=
  close ← index prices (wrap (len prices - 1));
  open ← index prices 0;
  let high := Max64 prices in
  let low := Min64 prices in
  let range := (close - open)%float in
  let trend := if (range <? 1)%float then Bearish else Bullish in
  Return
    {| Open := open; High := high; Low := low; Close := close;
       Range := range;
       percentChange := ((range * 100) / open)%float;
       Period := Hour;
       Time := Truncate (Truncate startTime Hour) Minute;
       Trend := trend;
       Prices := Some prices;
       TotalVolume := volume;
       Patterns := [];
       UpperTail := fst (tails trend open high low close);
       LowerTail := snd (tails trend open high low close);
       ID := 0 |}.

(** ** Candle predicates *)

Definition IsBullish (candle : OHLC) : bool := String.eqb (Trend candle) Bullish.
Definition IsBearish (candle : OHLC) : bool := String.eqb (Trend candle) Bearish.

Definition IsDoji (candle : OHLC) : bool :=
  (Floor (Open candle) =? Floor (Close candle))%float.

Definition IsHammer (candle : OHLC) : bool :=
  if IsBullish candle then
    if (LowerTail candle >? 2 * UpperTail candle)%float then true else false
  else false.

Definition Engulfs (candle candleTwo : OHLC) : bool :=
  if (High candle >? High candleTwo)%float && (Low candle <? Low candleTwo)%float
  then true else false.

(** [AllBearish]: no candle of the list is bullish. *)
Fixpoint AllBearish (candles : list OHLC) : bool :=
  match candles with
  | [] => true
  | candle :: rest => if IsBullish candle then false else AllBearish rest
  end.

(** [AllBullish]: no candle of the list is bearish. *)
Fixpoint AllBullish (candles : list OHLC) : bool :=
  match candles with
  | [] => true
  | candle :: rest => if IsBearish candle then false else AllBullish rest
  end.

(** ** Chart construction and navigation *)

(** The chart literal [NewCandleChart] starts from. *)
Definition empty_chart : CandleChart :=
  {| Candles := []; Length := 0; Start := 0; Stop := 0; Interval := 0;
     MovingAverage := ∅; MA30 := 0; MA90 := 0; Lines := (0%float, 0%float, 0%float);
     MaxPatternCandles := 5;
     BullishPatterns := empty_slice;
     BearishPatterns := empty_slice |}.

(** The [range] loop of [NewCandleChart], from position [i] on. *)
Fixpoint NewCandleChart_loop (i : Z) (candles : list OHLC) (c : CandleChart)
  : CandleChart :=
  match candles with
  | [] => c
  | candle :: rest =>
      NewCandleChart_loop (i + 1) rest (push_Candle c (set_ID candle i))
  end.

Definition NewCandleChart (candles : list OHLC) : CandleChart :=
  NewCandleChart_loop 0 candles empty_chart.

Definition nextCandle (cht : CandleChart) (current : OHLC)
  : outcome (OHLC * option error) :=
  if wrap (ID current + 1) <=? len (Candles cht)
  then Return (zero_OHLC, Some ErrLastCandle)
  else candle ← index (Candles cht) (wrap (ID current + 1));
       Return (candle, None).

(** The loop [for i := 1; i == num; i++] runs once when [num] is 1 and not
    at all otherwise. *)
Definition nextCandles (cht : CandleChart) (num : Z) (current : OHLC)
  : outcome (list OHLC * option error) :=
  if wrap (ID current + 1) <=? len (Candles cht)
  then Return ([], Some ErrLastCandle)
  else if num =? 1
       then candle ← index (Candles cht) (wrap (ID current + 1));
            Return ([candle], None)
       else Return ([], None).

Definition previousCandle (cht : CandleChart) (current : OHLC)
  : outcome (OHLC * option error) :=
  if ID current =? 0
  then Return (zero_OHLC, Some ErrLastCandle)
  else candle ← index (Candles cht) (wrap (ID current - 1));
       Return (candle, None).

(** The loop [for i := 1; i <= num; i++] of [previousCandles], with [k]
    rounds left and [candles] collected so far. *)
Fixpoint previousCandles_loop (cht : CandleChart) (current : OHLC)
    (i : Z) (k : nat) (candles : list OHLC) : outcome (list OHLC) :=
  match k with
  | O => Return candles
  | S k' =>
      candle ← index (Candles cht) (wrap (ID current - i));
      previousCandles_loop cht current (i + 1) k' (candles ++ [candle])
  end.

Definition previousCandles (cht : CandleChart) (num : Z) (current : OHLC)
  : outcome (list OHLC * option error) :=
  if ID current =? 0
  then Return ([], Some ErrLastCandle)
  else candles ← previousCandles_loop cht current 1 (Z.to_nat num) [];
       Return (candles, None).

(** ** Trend scoring *)

(** The counting loop of [DetectTrend]. *)
Fixpoint DetectTrend_loop (candles : list OHLC) (bullishScore bearishScore : Z)
  : Z * Z :=
  match candles with
  | [] => (bullishScore, bearishScore)
  | candle :: rest =>
      if IsBearish candle then DetectTrend_loop rest bullishScore (bearishScore + 1)
      else if IsBullish candle then DetectTrend_loop rest (bullishScore + 1) bearishScore
      else DetectTrend_loop rest bullishScore bearishScore
  end.

(** [DetectTrend]; the two scores are at most [len(candles)], so the
    increments cannot wrap. *)
Definition DetectTrend (candles : list OHLC) : ChartTrend :=
  let '(bullishScore, bearishScore) := DetectTrend_loop candles 0 0 in
  if bearishScore <? bullishScore then Bullish
  else if bullishScore <? bearishScore then Bearish
  else if bearishScore =? bullishScore then Indifferent
  else Indifferent.

(** ** Recording and detecting patterns *)

(** What the methods act on besides their arguments: the backing arrays of
    the bullish and of the bearish pattern slices, and what has been
    printed (the arguments of each [fmt.Println]). *)
Record world : Type := World {
  bullish_arrays : arrays BullishChartPattern;
  bearish_arrays : arrays BearishChartPattern;
  stdout : list (Z * list OHLC)
}.

(** A statement: from a world to how it ends and the world it leaves. *)
Record M (A : Type) : Type := Stmt { run : world -> outcome A * world }.
Arguments Stmt {A} _.
Arguments run {A} _ _.

#[export] Instance M_ret : MRet M := fun _ a => Stmt (fun w => (Return a, w)).
#[export] Instance M_bind : MBind M := fun _ _ f m => Stmt (fun w =>
  match run m w with
  | (Return a, w') => run (f a) w'
  | (Panicked p, w') => (Panicked p, w')
  end).

(** A call that touches no state. *)
Definition lift {A} (o : outcome A) : M A := Stmt (fun w => (o, w)).

(** [fmt.Println(n, candles)] *)
Definition Println (n : Z) (candles : list OHLC) : M unit := Stmt (fun w =>
  (Return tt,
   World (bullish_arrays w) (bearish_arrays w) (stdout w ++ [(n, candles)]))).

(** [if b { ... }] *)
Definition when (b : bool) (body : M unit) : M unit :=
  if b then body else mret tt.

(** [if x, err := call; err != ErrLastCandle { ... }] *)
Definition if_found {A} (call : outcome (A * option error)) (body : A -> M unit)
  : M unit :=
  r ← lift call;
  if not_ErrLastCandle (snd r) then body (fst r) else mret tt.

Section Recording.
Variable growslice : nat -> nat.

(** [AddBearishPattern]. The receiver is a copy of the caller's chart; the
    result is that copy as the method leaves it. *)
Definition AddBearishPattern (cht : CandleChart) (earliestCandle : OHLC)
    (pattern : BearishCandlestickPattern) : M CandleChart :=
  r ← lift (previousCandles cht 3 earliestCandle);
  if not_ErrLastCandle (snd r) then
    Stmt (fun w =>
      let record := {| Pattern := pattern;
                       PreceedingTrend := DetectTrend (fst r) |} in
      let '(h, s) := append growslice zero_bearish (bearish_arrays w)
                       (BearishPatterns cht) record in
      (Return (set_BearishPatterns cht s),
       World (bullish_arrays w) h (stdout w)))
  else mret cht.

(** [AddBullishPattern], likewise. *)
Definition AddBullishPattern (cht : CandleChart) (earliestCandle : OHLC)
    (pattern : BullishCandlestickPattern) : M CandleChart :=
  r ← lift (previousCandles cht 3 earliestCandle);
  if not_ErrLastCandle (snd r) then
    Stmt (fun w =>
      let record := {| Pattern := pattern;
                       PreceedingTrend := DetectTrend (fst r) |} in
      let '(h, s) := append growslice zero_bullish (bullish_arrays w)
                       (BullishPatterns cht) record in
      (Return (set_BullishPatterns cht s),
       World h (bearish_arrays w) (stdout w)))
  else mret cht.

(** A call statement [cht.Method(...)] on a value receiver: the method
    works on its own copy, which is dropped when it returns. *)
Definition call_by_value (method : M CandleChart) : M unit :=
  method ;; mret tt.
End Recording.

Section Detection.
Variable growslice : nat -> nat.

Local Abbreviation bearish cht candle pattern :=
  (call_by_value (AddBearishPattern growslice cht candle pattern)).
Local Abbreviation bullish cht candle pattern :=
  (call_by_value (AddBullishPattern growslice cht candle pattern)).

(** The rules for a bearish last candle (the first branch of
    [DetectPatterns]). *)
Definition bearish_rules (cht : CandleChart) (lastCandle : OHLC) : M unit :=
  if_found (previousCandle cht lastCandle) (fun previousCandle' =>
    when (IsBullish previousCandle') (
      when (Engulfs lastCandle previousCandle')
        (bearish cht previousCandle' BearishEngulfingPattern) ;;
      when (Engulfs previousCandle' lastCandle)
        (bearish cht previousCandle' BearishHarami) ;;
      when ((Open lastCandle >? Close previousCandle')%float
            && (High lastCandle >? Open lastCandle)%float)
        (when (Close lastCandle <? Low previousCandle')%float
           (bearish cht previousCandle' BearishKeyReversal))) ;;
    if_found (previousCandle cht previousCandle') (fun thirdCandle =>
      when (IsBullish thirdCandle) (
        if IsDoji previousCandle' then
          when ((Low previousCandle' >? Close thirdCandle)%float
                && (Open lastCandle <? Close previousCandle')%float)
            (when (Close lastCandle >? Open thirdCandle)%float
               (bearish cht thirdCandle EveningDojiStar))
        else
          when ((Range previousCandle' <=? Range lastCandle / 2)%float
                && (Open previousCandle' >? Open thirdCandle)%float)
            (when ((Open lastCandle >? Close previousCandle')%float
                   && (Close lastCandle >? Open thirdCandle)%float)
               (bearish cht thirdCandle BearishEveningStar))))) ;;
  if_found (previousCandles cht 3 lastCandle) (fun previousThreeCandles =>
    when (AllBullish previousThreeCandles) (
      oldest ← lift (index previousThreeCandles
                       (wrap (len previousThreeCandles - 1)));
      if_found (previousCandle cht oldest) (fun fifthCandle =>
        when (IsBearish fifthCandle)
          (when (Max64 (map High previousThreeCandles) <? High fifthCandle)%float
             (bearish cht fifthCandle BearishFallingThree))))) ;;
  if_found (previousCandles cht 2 lastCandle) (fun previousTwoCandles =>
    when (AllBullish previousTwoCandles) (
      second ← lift (index previousTwoCandles 1);
      if_found (previousCandle cht second) (fun fourthCandle =>
        when (IsBearish fourthCandle)
          (when (Max64 (map High previousTwoCandles) <? High fourthCandle)%float
             (bearish cht fourthCandle BearishFallingTwo))))) ;;
  if_found (previousCandles cht 3 lastCandle) (fun previousThreeCandles =>
    when (AllBearish previousThreeCandles)
      (bearish cht lastCandle BearishGenericPattern)).

(** The rules for a bullish last candle (the [else if] branch). The doji
    star and the rising-two rule call [AddBearishPattern], and the lows of
    the rising-three rule are read from [High]: all as in the source. *)
Definition bullish_rules (cht : CandleChart) (lastCandle : OHLC) : M unit :=
  if_found (previousCandle cht lastCandle) (fun previousCandle' =>
    when (IsBearish previousCandle') (
      when (Engulfs lastCandle previousCandle')
        (bullish cht previousCandle' BullishEngulfingPattern) ;;
      when (Engulfs previousCandle' lastCandle)
        (bullish cht previousCandle' BullishHarami) ;;
      when ((Open lastCandle <? Close previousCandle')%float
            && (Low lastCandle <? Open lastCandle)%float)
        (when (Close lastCandle >? High previousCandle')%float
           (bullish cht previousCandle' BullishKeyReversal))) ;;
    if_found (previousCandle cht previousCandle') (fun thirdCandle =>
      when (IsBearish thirdCandle) (
        if IsDoji previousCandle' then
          when ((High previousCandle' <? Close thirdCandle)%float
                && (Open lastCandle >? Close previousCandle')%float)
            (when (Close lastCandle <? Open thirdCandle)%float
               (bearish cht thirdCandle EveningDojiStar))
        else
          when ((Range previousCandle' <=? Range lastCandle / 2)%float
                && (Close previousCandle' <? Close thirdCandle)%float)
            (when ((Open lastCandle >? Close previousCandle')%float
                   && (Close lastCandle <? Open thirdCandle)%float)
               (bullish cht thirdCandle BullishMorningStar))))) ;;
  if_found (previousCandles cht 3 lastCandle) (fun previousThreeCandles =>
    when (AllBearish previousThreeCandles) (
      oldest ← lift (index previousThreeCandles
                       (wrap (len previousThreeCandles - 1)));
      if_found (previousCandle cht oldest) (fun fifthCandle =>
        when (IsBullish fifthCandle)
          (when (Min64 (map High previousThreeCandles) >? Low fifthCandle)%float
             (bullish cht fifthCandle BullishRisingThree))))) ;;
  if_found (previousCandles cht 2 lastCandle) (fun previousTwoCandles =>
    when (AllBearish previousTwoCandles) (
      second ← lift (index previousTwoCandles 1);
      if_found (previousCandle cht second) (fun fourthCandle =>
        when (IsBullish fourthCandle)
          (when (Max64 (map Low previousTwoCandles) >? Low fourthCandle)%float
             (bearish cht fourthCandle BearishFallingTwo))))) ;;
  if_found (previousCandles cht 3 lastCandle) (fun previousThreeCandles =>
    when (AllBullish previousThreeCandles)
      (bullish cht lastCandle BullishGenericPattern)).

(** The rules for a doji last candle. *)
Definition doji_rules (cht : CandleChart) (lastCandle : OHLC) : M unit :=
  if_found (previousCandle cht lastCandle) (fun previousCandle' =>
    when (IsBearish previousCandle'
          && (High lastCandle <? High previousCandle')%float
          && (Low lastCandle >? Low previousCandle')%float)
      (bullish cht previousCandle' BullishHaramiCross)) ;;
  if_found (previousCandle cht lastCandle) (fun previousCandle' =>
    when (IsBullish previousCandle'
          && (High lastCandle <? High previousCandle')%float
          && (Low lastCandle >? Low previousCandle')%float)
      (bearish cht previousCandle' BearishHaramiCross)).

(** [DetectPatterns]. The receiver is a copy of the caller's chart, and
    each [Add...Pattern] call below gets a copy of that copy. *)
Definition DetectPatterns (cht : CandleChart) : M unit :=
  Println (len (Candles cht)) (Candles cht) ;;
  patternCandles ← lift (slice_expr (Candles cht)
                           (wrap (len (Candles cht) - MaxPatternCandles cht))
                           (len (Candles cht)));
  let lastIdx := wrap (len patternCandles - 1) in
  lastCandle ← lift (index patternCandles lastIdx);
  (if IsBearish lastCandle then bearish_rules cht lastCandle
   else if IsBullish lastCandle then bullish_rules cht lastCandle
   else mret tt) ;;
  when (IsDoji lastCandle) (doji_rules cht lastCandle).
End Detection.

(** ** Callers *)

(** The calls a holder of a chart can make on it. *)
Inductive method_call : Type :=
  | Call_DetectPatterns
  | Call_AddBearishPattern (earliestCandle : OHLC) (pattern : BearishCandlestickPattern)
  | Call_AddBullishPattern (earliestCandle : OHLC) (pattern : BullishCandlestickPattern).

(** One call statement on the chart variable [cht]. *)
Definition perform (growslice : nat -> nat) (cht : CandleChart) (m : method_call)
  : M unit :=
  match m with
  | Call_DetectPatterns => DetectPatterns growslice cht
  | Call_AddBearishPattern candle pattern =>
      call_by_value (AddBearishPattern growslice cht candle pattern)
  | Call_AddBullishPattern candle pattern =>
      call_by_value (AddBullishPattern growslice cht candle pattern)
  end.

(** A caller that makes the calls one after the other on its variable
    [cht], going on after a call that panicked (as under [recover]); the
    result is the world after the last call. *)
Fixpoint perform_all (growslice : nat -> nat) (cht : CandleChart)
    (calls : list method_call) (w : world) : world :=
  match calls with
  | [] => w
  | m :: rest =>
      perform_all growslice cht rest (snd (run (perform growslice cht m) w))
  end.

(** ** Sample charts *)

(** Doubling, a growth policy for the examples. *)
Definition doubling (c : nat) : nat := (2 * c)%nat.

(** Nothing allocated, nothing printed. *)
Definition fresh_world : world := World [] [] [].

(** The candle [doOHLC] builds from a price list at time 0 with volume 1. *)
Definition candle_of (prices : list float) : OHLC :=
  match doOHLC 0 prices 1%float with
  | Return candle => candle
  | Panicked _ => zero_OHLC
  end.

(** Five falling candles. *)
Definition falling_five : CandleChart :=
  NewCandleChart
    [candle_of [10; 9]%float; candle_of [9; 8]%float; candle_of [8; 7]%float;
     candle_of [7; 6]%float; candle_of [6; 5]%float].

(** Six candles: three falling ones, a bearish candle from 20 to 15, a doji
    between 10.25 and 10.5 with high 11, and a bullish candle from 12 to
    18. *)
Definition doji_star_six : CandleChart :=
  NewCandleChart
    [candle_of [9; 8]%float; candle_of [8; 7]%float; candle_of [7; 6]%float;
     candle_of [20; 15]%float; candle_of [10.25; 11; 10.5]%float;
     candle_of [12; 18]%float].

(** The same six candles in a chart whose bearish list already holds one
    record, in a backing array with room for four; and the world with that
    array. *)
Definition seen_before : BearishChartPattern :=
  {| Pattern := BearishHarami; PreceedingTrend := Bullish |}.

Definition roomy_six : CandleChart :=
  set_BearishPatterns doji_star_six (Slice 0 0 1 4).

Definition roomy_world : world :=
  World [] [[seen_before; zero_bearish; zero_bearish; zero_bearish]] [].

(** The record the doji-star rule writes for [doji_star_six]. *)
Definition doji_star_record : BearishChartPattern :=
  {| Pattern := EveningDojiStar; PreceedingTrend := Bearish |}.

(** ** Vocabulary of the properties *)

(** The number of candles of a list that a predicate accepts. *)
Definition count (f : OHLC -> bool) (candles : list OHLC) : Z :=
  len (filter (fun candle => f candle = true) candles).

(** The loop step shared by [Max64] and [Min64]: keep the value seen so far
    unless the next one is beyond it. *)
Definition keep_beyond (beyond : float -> float -> bool) (best v : float) : float :=
  if beyond v best then v else best.

(** The chart value [cht] shows the given pattern lists in the world [w]:
    its two headers are well formed there and show these elements. *)
Definition shows (cht : CandleChart) (bullish : list BullishChartPattern)
    (bearish : list BearishChartPattern) (w : world) : Prop :=
  wf_slice (bullish_arrays w) (BullishPatterns cht) /\
  wf_slice (bearish_arrays w) (BearishPatterns cht) /\
  elems (bullish_arrays w) (BullishPatterns cht) = bullish /\
  elems (bearish_arrays w) (BearishPatterns cht) = bearish.

(** No bullish array holds a [MorningDojiStar] record. *)
Definition no_MorningDojiStar (w : world) : Prop :=
  Forall (Forall (fun r : BullishChartPattern => Pattern r <> MorningDojiStar))
    (bullish_arrays w).

(** A statement preserves a property of the world, however it ends. *)
Definition preserves (I : world -> Prop) {A} (m : M A) : Prop :=
  forall w, I w -> I (snd (run m w)).

(** Every candle of the chart carries its position as [ID], and the chart is
    no longer than a Go slice can be. *)
Definition indexed (cht : CandleChart) : Prop :=
  len (Candles cht) <= max_int /\
  forall (i : nat) (c : OHLC), Candles cht !! i = Some c -> ID c = Z.of_nat i.

(** Two candles with crossing ranges, and one that holds both. *)
Definition wide_candle : OHLC := candle_of [10; 20; 5; 12]%float.
Definition narrow_candle : OHLC := candle_of [11; 15; 8; 12]%float.
Definition wider_candle : OHLC := candle_of [10; 30; 2; 12]%float.

(** [cht.MaxPatternCandles = n] *)
Definition set_MaxPatternCandles (c : CandleChart) (n : Z) : CandleChart :=
  {| Candles := Candles c; Length := Length c; Start := Start c;
     Stop := Stop c; Interval := Interval c; MovingAverage := MovingAverage c;
     MA30 := MA30 c; MA90 := MA90 c; Lines := Lines c;
     MaxPatternCandles := n;
     BullishPatterns := BullishPatterns c;
     BearishPatterns := BearishPatterns c |}.

(** The five falling candles with a pattern window of zero candles. *)
Definition windowless_five : CandleChart := set_MaxPatternCandles falling_five 0.

(** A statement returns, from every world, without a panic. *)
Definition returns {A} (m : M A) : Prop :=
  forall w, exists a w', run m w = (Return a, w').

(** Two statements end alike and leave the same world, from every world. *)
Definition same_runs {A} (m m' : M A) : Prop := forall w, run m w = run m' w.

(** Seven candles: two falling ones, a long bearish candle from 30 to 20,
    three rising ones below its high, and a bearish candle. *)
Definition trio_seven : CandleChart :=
  NewCandleChart
    [candle_of [9; 8]%float; candle_of [8; 7]%float; candle_of [30; 20]%float;
     candle_of [10; 12]%float; candle_of [12; 14]%float; candle_of [14; 16]%float;
     candle_of [16; 15]%float].

(** The same after one more falling candle at the front. *)
Definition trio_eight : CandleChart :=
  NewCandleChart
    [candle_of [10; 9]%float;
     candle_of [9; 8]%float; candle_of [8; 7]%float; candle_of [30; 20]%float;
     candle_of [10; 12]%float; candle_of [12; 14]%float; candle_of [14; 16]%float;
     candle_of [16; 15]%float].

(** No bullish array holds a record of one of the two bullish patterns that
    no rule passes on. *)
Definition no_unused_bullish_pattern (w : world) : Prop :=
  Forall (Forall (fun r : BullishChartPattern =>
                    Pattern r <> MorningDojiStar /\ Pattern r <> BullishRisingTwo))
    (bullish_arrays w).

(** * Properties *)

(** Closed arithmetic side conditions, by evaluation. *)
Ltac evaluate := vm_compute; repeat split; congruence.

(** ** Integers, indexing and floats *)

Lemma wrap_in_int (z : Z) : in_int z -> wrap z = z.
Proof.
  unfold in_int, min_int, max_int, wrap. intros Hz.
  rewrite Z.mod_small by lia. lia.
Qed.

(** An addition or subtraction whose result is within [int] does not
    wrap. *)
Ltac no_wrap :=
  rewrite wrap_in_int by (unfold in_int, min_int, max_int in *; lia).

Lemma len_nonneg {A} (a : list A) : 0 <= len a.
Proof. unfold len. lia. Qed.

Lemma index_lookup {A} (a : list A) (i : Z) (x : A) :
  0 <= i -> a !! Z.to_nat i = Some x -> index a i = Return x.
Proof.
  intros Hi Hx. unfold index.
  destruct (Z.ltb_spec i 0); [lia|]. now rewrite Hx.
Qed.

Lemma index_negative {A} (a : list A) (i : Z) :
  i < 0 -> index a i = Panicked (IndexOutOfRange i (len a)).
Proof. intros Hi. unfold index. destruct (Z.ltb_spec i 0); [easy|lia]. Qed.

Lemma index_beyond {A} (a : list A) (i : Z) :
  len a <= i -> index a i = Panicked (IndexOutOfRange i (len a)).
Proof.
  intros Hi. unfold index. destruct (Z.ltb_spec i 0); [easy|].
  rewrite (proj2 (lookup_ge_None a (Z.to_nat i))); [easy|]. unfold len in Hi. lia.
Qed.

(** [<] on binary64 is transitive; reading it through the specification of
    the primitive comparison. *)
Lemma SFltb_trans (x y z : spec_float) :
  SFltb x y = true -> SFltb y z = true -> SFltb x z = true.
Proof.
  unfold SFltb, SFcompare.
  destruct x as [sx|sx| |sx mx ex], y as [sy|sy| |sy my ey],
    z as [sz|sz| |sz mz ez];
    repeat match goal with s : bool |- _ => destruct s end;
    try discriminate; try reflexivity.
  all: change (Pos.compare_cont Eq ?a ?b) with (Pos.compare a b).
  all: destruct (Z.compare_spec ex ey), (Z.compare_spec ey ez),
         (Z.compare_spec ex ez); subst;
       try discriminate; try reflexivity; try lia.
  all: destruct (Pos.compare_spec mx my), (Pos.compare_spec my mz),
         (Pos.compare_spec mx mz); subst; simpl;
       try discriminate; try reflexivity; try lia.
Qed.

Lemma float_ltb_trans (a b c : float) :
  (a <? b)%float = true -> (b <? c)%float = true -> (a <? c)%float = true.
Proof. rewrite !ltb_spec. apply SFltb_trans. Qed.

(** ** Trends are three different strings *)

Lemma IsBearish_not_IsBullish (candle : OHLC) :
  IsBearish candle = true -> IsBullish candle = false.
Proof.
  unfold IsBearish, IsBullish. intros H.
  apply String.eqb_eq in H. now rewrite H.
Qed.

(** ** C10: the chart's candles carry their position as [ID] *)

Lemma NewCandleChart_loop_Candles (candles : list OHLC) :
  forall (i : Z) (c : CandleChart),
    Candles (NewCandleChart_loop i candles c) =
    Candles c ++ imap (fun k candle => set_ID candle (i + Z.of_nat k)) candles.
Proof.
  induction candles as [|candle rest IH]; intros i c; simpl.
  - now rewrite app_nil_r.
  - rewrite IH. simpl. rewrite <- app_assoc. simpl.
    rewrite Z.add_0_r. do 2 f_equal.
    apply imap_ext. intros k x _. simpl. f_equal. lia.
Qed.

Lemma NewCandleChart_Candles (candles : list OHLC) :
  Candles (NewCandleChart candles) =
  imap (fun k candle => set_ID candle (Z.of_nat k)) candles.
Proof. unfold NewCandleChart. now rewrite NewCandleChart_loop_Candles. Qed.

Lemma NewCandleChart_len (candles : list OHLC) :
  len (Candles (NewCandleChart candles)) = len candles.
Proof. unfold len. now rewrite NewCandleChart_Candles, length_imap. Qed.

(** C10. For every candle batch, the candle at position [i] of the chart
    built from it is the [i]-th candle of the batch with its [ID] set to
    [i]: every candle's ID is its 0-based position, so the IDs are
    contiguous and unique. *)
Theorem NewCandleChart_ID_is_position (candles : list OHLC) (i : nat) (c : OHLC) :
  Candles (NewCandleChart candles) !! i = Some c ->
  ID c = Z.of_nat i /\
  exists candle, candles !! i = Some candle /\ c = set_ID candle (Z.of_nat i).
Proof.
  rewrite NewCandleChart_Candles, list_lookup_imap.
  destruct (candles !! i) as [candle|] eqn:E; simpl; [|discriminate].
  intros [= <-]. split; [reflexivity|]. now exists candle.
Qed.

Lemma NewCandleChart_ID_is_position_witness :
  Candles falling_five !! 3%nat = Some (set_ID (candle_of [7; 6]%float) 3) /\
  ID (set_ID (candle_of [7; 6]%float) 3) = 3.
Proof.
  assert (H : Candles falling_five !! 3%nat
              = Some (set_ID (candle_of [7; 6]%float) 3)) by reflexivity.
  split; [exact H|].
  exact (proj1 (NewCandleChart_ID_is_position _ 3%nat _ H)).
Defined.

(** ** C9: the trend of a group of candles *)

Lemma count_cons (f : OHLC -> bool) (candle : OHLC) (rest : list OHLC) :
  count f (candle :: rest) = (if f candle then 1 else 0) + count f rest.
Proof.
  unfold count, len. rewrite filter_cons.
  destruct (f candle); simpl.
  - destruct (decide (true = true)); [simpl; lia|congruence].
  - destruct (decide (false = true)); [discriminate|lia].
Qed.

Lemma DetectTrend_loop_counts (candles : list OHLC) :
  forall bullishScore bearishScore : Z,
    DetectTrend_loop candles bullishScore bearishScore =
    (bullishScore + count IsBullish candles, bearishScore + count IsBearish candles).
Proof.
  induction candles as [|candle rest IH]; intros bu be.
  - unfold count, len. simpl. f_equal; lia.
  - simpl. rewrite !count_cons.
    destruct (IsBearish candle) eqn:Hbear.
    + rewrite (IsBearish_not_IsBullish _ Hbear), IH. f_equal; lia.
    + destruct (IsBullish candle); rewrite IH; f_equal; lia.
Qed.

(** C9. For every list of candles, [DetectTrend] is Bullish when the
    bullish candles outnumber the bearish ones, Bearish when the bearish
    ones outnumber the bullish ones, and Indifferent otherwise; so the
    empty list and every list with as many bullish as bearish candles are
    Indifferent. *)
Theorem DetectTrend_compares_counts (candles : list OHLC) :
  DetectTrend candles =
    (if count IsBearish candles <? count IsBullish candles then Bullish
     else if count IsBullish candles <? count IsBearish candles then Bearish
     else Indifferent)
  /\ DetectTrend [] = Indifferent
  /\ (count IsBullish candles = count IsBearish candles ->
      DetectTrend candles = Indifferent).
Proof.
  assert (H : DetectTrend candles =
    (if count IsBearish candles <? count IsBullish candles then Bullish
     else if count IsBullish candles <? count IsBearish candles then Bearish
     else Indifferent)).
  { unfold DetectTrend. rewrite DetectTrend_loop_counts. simpl.
    destruct (_ <? _); [reflexivity|].
    destruct (_ <? _); [reflexivity|].
    now destruct (_ =? _). }
  split; [exact H|]. split; [reflexivity|].
  intros Heq. rewrite H, Heq, Z.ltb_irrefl. reflexivity.
Qed.

Lemma DetectTrend_compares_counts_witness :
  count IsBullish [candle_of [12; 18]%float; candle_of [20; 15]%float] = 1 /\
  count IsBearish [candle_of [12; 18]%float; candle_of [20; 15]%float] = 1 /\
  DetectTrend [candle_of [12; 18]%float; candle_of [20; 15]%float] = Indifferent.
Proof.
  split; [reflexivity|]. split; [reflexivity|].
  apply (proj2 (proj2 (DetectTrend_compares_counts
                         [candle_of [12; 18]%float; candle_of [20; 15]%float]))).
  reflexivity.
Defined.

(** ** C7 and C8: candle construction *)

Lemma SFltb_irrefl (x : spec_float) : SFltb x x = false.
Proof.
  unfold SFltb, SFcompare. destruct x as [s|s| |s m e]; try destruct s;
    try reflexivity.
  all: change (Pos.compare_cont Eq ?a ?b) with (Pos.compare a b).
  all: now rewrite Z.compare_refl, Pos.compare_refl.
Qed.

Lemma float_ltb_irrefl (a : float) : (a <? a)%float = false.
Proof. rewrite ltb_spec. apply SFltb_irrefl. Qed.

Section Extremum.
(** [Max64] and [Min64] run the same loop, for a strict order [beyond]. *)
Variable beyond : float -> float -> bool.
Hypothesis beyond_irrefl : forall a, beyond a a = false.
Hypothesis beyond_trans :
  forall a b c, beyond a b = true -> beyond b c = true -> beyond a c = true.

Local Abbreviation keep_beyond := (keep_beyond beyond).

Lemma keep_beyond_cases (best v : float) :
  keep_beyond best v = best /\ beyond v best = false \/
  keep_beyond best v = v /\ beyond v best = true.
Proof. unfold keep_beyond. destruct (beyond v best); [right|left]; easy. Qed.

Lemma extremum_fold (a : list float) :
  forall best : float,
    (fold_left keep_beyond a best = best \/
     beyond (fold_left keep_beyond a best) best = true) /\
    (fold_left keep_beyond a best = best \/ fold_left keep_beyond a best ∈ a) /\
    (forall v, v ∈ a -> beyond v (fold_left keep_beyond a best) = false).
Proof.
  induction a as [|v rest IH]; intros best.
  - split; [now left|]. split; [now left|]. intros v Hv. inversion Hv.
  - cbn [fold_left].
    destruct (IH (keep_beyond best v)) as (Hle & Hin & Hall).
    set (r := fold_left keep_beyond rest (keep_beyond best v)) in *.
    pose proof (keep_beyond_cases best v) as Hstep.
    split; [|split].
    + destruct Hstep as [[E _]|[E H]]; rewrite E in Hle.
      * exact Hle.
      * right. destruct Hle as [->|Hlt]; [exact H|].
        eapply beyond_trans; eassumption.
    + destruct Hin as [E|Hin].
      * destruct Hstep as [[E' _]|[E' _]]; rewrite E' in E.
        -- now left.
        -- right. rewrite E. constructor.
      * right. now constructor.
    + intros u Hu. apply elem_of_cons in Hu as [->|Hu]; [|now apply Hall].
      destruct (beyond v r) eqn:Hv; [exfalso|reflexivity].
      destruct Hstep as [[E H]|[E _]]; rewrite E in Hle.
      * destruct Hle as [E'|Hlt].
        -- rewrite E' in Hv. congruence.
        -- pose proof (beyond_trans _ _ _ Hv Hlt). congruence.
      * destruct Hle as [E'|Hlt].
        -- rewrite E', beyond_irrefl in Hv. discriminate.
        -- pose proof (beyond_trans _ _ _ Hv Hlt) as Hvv.
           rewrite beyond_irrefl in Hvv. discriminate.
Qed.
End Extremum.

(** [Max64] of a non-empty list is one of its values, and none of them is
    greater. *)
Lemma Max64_greatest (a : list float) :
  a <> [] -> Max64 a ∈ a /\ forall v, v ∈ a -> (v >? Max64 a)%float = false.
Proof.
  destruct a as [|a0 rest]; [easy|]. intros _. unfold Max64.
  destruct (extremum_fold (fun v best => (v >? best)%float)
              (fun x => float_ltb_irrefl x)
              (fun x y z Hxy Hyz => float_ltb_trans z y x Hyz Hxy)
              (a0 :: rest) a0) as (_ & Hin & Hall).
  unfold keep_beyond in Hin, Hall.
  split; [|exact Hall].
  destruct Hin as [->|Hin]; [constructor|exact Hin].
Qed.

(** [Min64] of a non-empty list is one of its values, and none of them is
    smaller. *)
Lemma Min64_least (a : list float) :
  a <> [] -> Min64 a ∈ a /\ forall v, v ∈ a -> (v <? Min64 a)%float = false.
Proof.
  destruct a as [|a0 rest]; [easy|]. intros _. unfold Min64.
  destruct (extremum_fold (fun v best => (v <? best)%float)
              float_ltb_irrefl float_ltb_trans (a0 :: rest) a0)
    as (_ & Hin & Hall).
  unfold keep_beyond in Hin, Hall.
  split; [|exact Hall].
  destruct Hin as [->|Hin]; [constructor|exact Hin].
Qed.

Lemma doOHLC_nonempty (startTime : time_Time) (prices : list float) (volume : float) :
  prices <> [] -> len prices <= max_int ->
  exists open close,
    head prices = Some open /\ last prices = Some close /\
    doOHLC startTime prices volume =
    Return
      {| Open := open; High := Max64 prices; Low := Min64 prices; Close := close;
         Range := (close - open)%float;
         percentChange := (((close - open) * 100) / open)%float;
         Period := Hour;
         Time := Truncate (Truncate startTime Hour) Minute;
         Trend := if (close - open <? 1)%float then Bearish else Bullish;
         Prices := Some prices;
         TotalVolume := volume;
         Patterns := [];
         UpperTail := fst (tails (if (close - open <? 1)%float then Bearish else Bullish)
                             open (Max64 prices) (Min64 prices) close);
         LowerTail := snd (tails (if (close - open <? 1)%float then Bearish else Bullish)
                             open (Max64 prices) (Min64 prices) close);
         ID := 0 |}.
Proof.
  intros Hne Hlen.
  destruct prices as [|p ps]; [easy|].
  destruct (last (p :: ps)) as [close|] eqn:Hlast.
  2:{ apply last_None in Hlast. discriminate. }
  exists p, close. split; [reflexivity|]. split; [reflexivity|].
  unfold doOHLC.
  assert (Hpos : 1 <= len (p :: ps)) by (unfold len; simpl; lia).
  no_wrap.
  rewrite (index_lookup (p :: ps) (len (p :: ps) - 1) close); [|lia|].
  2:{ rewrite last_lookup in Hlast. rewrite <- Hlast. f_equal.
      unfold len. simpl. lia. }
  reflexivity.
Qed.

(** C7 as stated fails on the empty price list: [doOHLC] has no error
    result and the package has no error for an empty input; indexing the
    last price panics. *)
Lemma doOHLC_empty_panics :
  doOHLC 0 [] 0%float = Panicked (IndexOutOfRange (-1) 0).
Proof. reflexivity. Qed.

(** C7, amended. On the empty price list [doOHLC] panics with an index out
    of range and builds no candle. On a non-empty price list it returns a
    candle whose open is the first price, whose close is the last price,
    whose high is [Max64] of the prices (one of the prices, and no price is
    greater), and whose low is [Min64] of the prices (one of the prices, and
    no price is smaller). *)
Theorem doOHLC_open_close_high_low
    (startTime : time_Time) (prices : list float) (volume : float) :
  (prices = [] ->
   doOHLC startTime prices volume = Panicked (IndexOutOfRange (-1) 0)) /\
  (prices <> [] -> len prices <= max_int ->
   exists candle,
     doOHLC startTime prices volume = Return candle /\
     head prices = Some (Open candle) /\
     last prices = Some (Close candle) /\
     High candle = Max64 prices /\
     High candle ∈ prices /\
     (forall v, v ∈ prices -> (v >? High candle)%float = false) /\
     Low candle = Min64 prices /\
     Low candle ∈ prices /\
     (forall v, v ∈ prices -> (v <? Low candle)%float = false)).
Proof.
  split.
  - intros ->. reflexivity.
  - intros Hne Hlen.
    destruct (doOHLC_nonempty startTime prices volume Hne Hlen)
      as (open & close & Hhead & Hlast & ->).
    destruct (Max64_greatest prices Hne) as [Hmax_in Hmax].
    destruct (Min64_least prices Hne) as [Hmin_in Hmin].
    eexists. split; [reflexivity|]. simpl. tauto.
Qed.

Lemma doOHLC_open_close_high_low_witness :
  exists candle,
    doOHLC 0 [12; 18; 11.5]%float 1%float = Return candle /\
    head [12; 18; 11.5]%float = Some (Open candle) /\
    last [12; 18; 11.5]%float = Some (Close candle) /\
    High candle = Max64 [12; 18; 11.5]%float /\
    High candle ∈ [12; 18; 11.5]%float /\
    (forall v, v ∈ [12; 18; 11.5]%float -> (v >? High candle)%float = false) /\
    Low candle = Min64 [12; 18; 11.5]%float /\
    Low candle ∈ [12; 18; 11.5]%float /\
    (forall v, v ∈ [12; 18; 11.5]%float -> (v <? Low candle)%float = false).
Proof.
  apply (proj2 (doOHLC_open_close_high_low 0 [12; 18; 11.5]%float 1%float)).
  - discriminate.
  - vm_compute. discriminate.
Defined.

(** C8. Every candle [doOHLC] builds has [Range = Close - Open], is
    Bearish exactly when that range is below 1.0 and Bullish otherwise;
    it is never Indifferent. *)
Theorem doOHLC_trend
    (startTime : time_Time) (prices : list float) (volume : float) (candle : OHLC) :
  doOHLC startTime prices volume = Return candle ->
  Range candle = (Close candle - Open candle)%float /\
  (Trend candle = Bearish <-> (Range candle <? 1)%float = true) /\
  (Trend candle = Bullish <-> (Range candle <? 1)%float = false) /\
  Trend candle <> Indifferent.
Proof.
  unfold doOHLC. intros H.
  destruct (index prices (wrap (len prices - 1))) as [close|]; [|discriminate].
  destruct (index prices 0) as [open|]; [|discriminate].
  simpl in H. injection H as <-. simpl.
  split; [reflexivity|].
  destruct (close - open <? 1)%float; repeat split; try easy.
Qed.

Lemma doOHLC_trend_witness :
  Trend (candle_of [12; 18]%float) = Bullish /\
  (Range (candle_of [12; 18]%float) <? 1)%float = false.
Proof.
  assert (H : doOHLC 0 [12; 18]%float 1%float = Return (candle_of [12; 18]%float))
    by reflexivity.
  destruct (doOHLC_trend 0 [12; 18]%float 1%float _ H) as (_ & _ & Hbull & _).
  split; [reflexivity|]. apply Hbull. reflexivity.
Defined.

(** ** C3: stepping forwards and backwards *)

(** [nextCandle] never returns a candle: its guard holds whenever the next
    position exists, and when the guard fails the next position is out of
    range. *)
Lemma nextCandle_never_returns_a_candle (cht : CandleChart) (current : OHLC) :
  nextCandle cht current = Return (zero_OHLC, Some ErrLastCandle) \/
  nextCandle cht current =
    Panicked (IndexOutOfRange (wrap (ID current + 1)) (len (Candles cht))).
Proof.
  unfold nextCandle.
  destruct (Z.leb_spec (wrap (ID current + 1)) (len (Candles cht))) as [H|H].
  - now left.
  - right. rewrite index_beyond by lia. reflexivity.
Qed.

(** [previousCandle] steps back from every candle but the first. *)
Lemma previousCandle_of_chart_candle (cht : CandleChart) (current : OHLC) :
  0 < ID current <= len (Candles cht) -> len (Candles cht) <= max_int ->
  exists candle,
    Candles cht !! Z.to_nat (ID current - 1) = Some candle /\
    previousCandle cht current = Return (candle, None).
Proof.
  intros Hid Hlen. unfold previousCandle.
  destruct (Z.eqb_spec (ID current) 0) as [E|_]; [lia|].
  no_wrap.
  destruct (lookup_lt_is_Some_2 (Candles cht) (Z.to_nat (ID current - 1)))
    as [candle Hc]; [unfold len in *; lia|].
  exists candle. split; [exact Hc|].
  rewrite (index_lookup _ _ candle) by (lia || exact Hc). reflexivity.
Qed.

(** C3, on the code. For every candle of a chart, the last one or not,
    [nextCandle] reports [ErrLastCandle] and returns the zero candle: the
    candle at the next position is never returned. *)
Theorem nextCandle_of_chart_candle (cht : CandleChart) (current : OHLC) :
  0 <= ID current < len (Candles cht) -> len (Candles cht) <= max_int ->
  nextCandle cht current = Return (zero_OHLC, Some ErrLastCandle).
Proof.
  intros Hid Hlen. unfold nextCandle.
  no_wrap.
  destruct (Z.leb_spec (ID current + 1) (len (Candles cht))); [reflexivity|lia].
Qed.

Lemma nextCandle_of_chart_candle_witness :
  Candles falling_five !! 1%nat = Some (set_ID (candle_of [9; 8]%float) 1) /\
  nextCandle falling_five (set_ID (candle_of [10; 9]%float) 0)
  = Return (zero_OHLC, Some ErrLastCandle).
Proof.
  split; [reflexivity|].
  apply (nextCandle_of_chart_candle falling_five); evaluate.
Defined.

(** ** C4: looking back over several candles *)

Lemma previousCandles_loop_length (cht : CandleChart) (current : OHLC) (k : nat) :
  forall (i : Z) (acc candles : list OHLC),
    previousCandles_loop cht current i k acc = Return candles ->
    length candles = (length acc + k)%nat.
Proof.
  induction k as [|k IH]; intros i acc candles; simpl.
  - intros [= <-]. lia.
  - destruct (index (Candles cht) (wrap (ID current - i))) as [candle|];
      simpl; [|discriminate].
    intros H. apply IH in H. rewrite length_app in H. simpl in H. lia.
Qed.

Lemma previousCandles_loop_enough (cht : CandleChart) (current : OHLC) (k : nat) :
  forall (i : Z) (acc : list OHLC),
    1 <= i -> i + Z.of_nat k - 1 <= ID current ->
    ID current - i < len (Candles cht) -> len (Candles cht) <= max_int ->
    exists candles,
      previousCandles_loop cht current i k acc = Return (acc ++ candles) /\
      length candles = k /\
      forall j : nat, (j < k)%nat ->
        candles !! j = Candles cht !! Z.to_nat (ID current - i - Z.of_nat j).
Proof.
  induction k as [|k IH]; intros i acc Hi Hk Hlt Hlen.
  - exists []. rewrite app_nil_r. repeat split. intros j Hj. lia.
  - simpl.
    no_wrap.
    destruct (lookup_lt_is_Some_2 (Candles cht) (Z.to_nat (ID current - i)))
      as [candle Hc]; [unfold len in *; lia|].
    rewrite (index_lookup _ _ candle) by (lia || exact Hc). simpl.
    destruct (IH (i + 1) (acc ++ [candle])) as (rest & -> & Hn & Hrest);
      [lia..|].
    exists (candle :: rest). rewrite <- app_assoc. split; [reflexivity|].
    split; [simpl; lia|].
    intros [|j] Hj; simpl.
    + rewrite Z.sub_0_r. now rewrite Hc.
    + rewrite Hrest by lia. do 2 f_equal. lia.
Qed.

(** With at least [n] candles before it, a candle that is not the first has
    its [n] predecessors returned, nearest first. *)
Lemma previousCandles_enough (cht : CandleChart) (n : Z) (current : OHLC) :
  0 <= n -> 0 < ID current -> n <= ID current ->
  ID current <= len (Candles cht) -> len (Candles cht) <= max_int ->
  exists candles,
    previousCandles cht n current = Return (candles, None) /\
    len candles = n /\
    forall i, 0 <= i < n ->
      candles !! Z.to_nat i = Candles cht !! Z.to_nat (ID current - 1 - i).
Proof.
  intros Hn Hid Hle Hin Hlen. unfold previousCandles.
  destruct (Z.eqb_spec (ID current) 0) as [E|_]; [lia|].
  destruct (previousCandles_loop_enough cht current (Z.to_nat n) 1 [])
    as (candles & -> & Hlength & Hnth); [lia..|].
  exists candles. split; [reflexivity|]. split; [unfold len; lia|].
  intros i Hi. rewrite Hnth by lia. do 2 f_equal. lia.
Qed.

(** Looking back over more candles than there are, from a candle that is
    not the first, runs off the front of the chart. *)
Lemma previousCandles_loop_panics (cht : CandleChart) (current : OHLC) (k : nat) :
  forall (i : Z) (acc : list OHLC),
    1 <= i <= ID current + 1 -> ID current < i + Z.of_nat k - 1 ->
    ID current <= len (Candles cht) -> len (Candles cht) <= max_int ->
    previousCandles_loop cht current i k acc
    = Panicked (IndexOutOfRange (-1) (len (Candles cht))).
Proof.
  induction k as [|k IH]; intros i acc Hi Hk Hid Hlen; simpl.
  - lia.
  - no_wrap.
    destruct (Z.eq_dec i (ID current + 1)) as [->|Hne].
    + replace (ID current - (ID current + 1)) with (-1) by lia. reflexivity.
    + destruct (lookup_lt_is_Some_2 (Candles cht) (Z.to_nat (ID current - i)))
        as [candle Hc]; [unfold len in *; lia|].
      rewrite (index_lookup _ _ candle) by (lia || exact Hc). simpl.
      apply IH; lia.
Qed.

Lemma previousCandles_panics (cht : CandleChart) (n : Z) (current : OHLC) :
  0 < ID current < n ->
  ID current <= len (Candles cht) -> len (Candles cht) <= max_int ->
  previousCandles cht n current
  = Panicked (IndexOutOfRange (-1) (len (Candles cht))).
Proof.
  intros Hid Hin Hlen. unfold previousCandles.
  destruct (Z.eqb_spec (ID current) 0) as [E|_]; [lia|].
  rewrite previousCandles_loop_panics by lia. reflexivity.
Qed.

(** C4, on the code. For a candle of the chart and a count [n >= 0]:
    with at least [n] candles before it, a candle that is not the first has
    exactly [n] candles returned without an error, nearest first (element
    [i] is the candle [i + 1] positions back); from the first candle
    [ErrLastCandle] is reported with a nil list. From a later candle with
    fewer than [n] candles before it the call does not fail with an error:
    it reads the candles there are and then panics with an index out of
    range. Whenever the call does return without an error, the list has
    exactly [n] candles, never fewer. *)
Theorem previousCandles_exact_or_panics
    (cht : CandleChart) (n : Z) (current : OHLC) :
  0 <= n <= max_int ->
  0 <= ID current < len (Candles cht) -> len (Candles cht) <= max_int ->
  (0 < ID current -> n <= ID current ->
   exists candles,
     previousCandles cht n current = Return (candles, None) /\
     len candles = n /\
     forall i, 0 <= i < n ->
       candles !! Z.to_nat i = Candles cht !! Z.to_nat (ID current - 1 - i)) /\
  (ID current = 0 ->
   previousCandles cht n current = Return ([], Some ErrLastCandle)) /\
  (0 < ID current < n ->
   previousCandles cht n current
   = Panicked (IndexOutOfRange (-1) (len (Candles cht)))) /\
  (forall candles err,
     previousCandles cht n current = Return (candles, err) ->
     err = Some ErrLastCandle /\ candles = [] \/
     err = None /\ len candles = n).
Proof.
  intros Hn Hid Hlen. repeat split.
  - intros Hpos Hle. apply previousCandles_enough; lia.
  - intros E. unfold previousCandles. now rewrite E.
  - intros Hshort. apply previousCandles_panics; lia.
  - intros candles err. unfold previousCandles.
    destruct (Z.eqb_spec (ID current) 0) as [E|NE].
    + intros [= <- <-]. now left.
    + destruct (previousCandles_loop cht current 1 (Z.to_nat n) []) as [l|] eqn:E;
        simpl; [|discriminate].
      intros [= <- <-]. right. split; [reflexivity|].
      apply previousCandles_loop_length in E. unfold len. simpl in E. lia.
Qed.

Lemma previousCandles_exact_or_panics_witness :
  previousCandles falling_five 3 (set_ID (candle_of [9; 8]%float) 1)
  = Panicked (IndexOutOfRange (-1) 5).
Proof.
  apply (previousCandles_exact_or_panics falling_five 3
           (set_ID (candle_of [9; 8]%float) 1)).
  - evaluate.
  - evaluate.
  - evaluate.
  - evaluate.
Defined.

(** ** Appending to a slice *)

Section AppendFacts.
Context {A : Type}.
Variable growslice : nat -> nat.
Variable zero : A.

(** [append] leaves the header it was given, and the elements that header
    shows, as they were: it writes past the header's last element or into
    a new array. *)
Lemma append_frame (h : arrays A) (s : slice) (x : A) :
  wf_slice h s ->
  wf_slice (fst (append growslice zero h s x)) s /\
  elems (fst (append growslice zero h s x)) s = elems h s.
Proof.
  intros [Hlen Hcap]. unfold append.
  destruct (decide (s_len s < s_cap s)%nat) as [Hspare|Hfull]; simpl.
  - destruct Hcap as [Hzero|(a & Ha & Hin)]; [lia|].
    split.
    + split; [exact Hlen|]. right.
      exists (<[(s_off s + s_len s)%nat := x]> a).
      rewrite list_lookup_alter_eq, Ha. split; [reflexivity|].
      now rewrite length_insert.
    + unfold elems. rewrite list_lookup_alter_eq, Ha. simpl.
      rewrite drop_insert_ge by lia.
      rewrite take_insert_ge by lia. reflexivity.
  - destruct Hcap as [Hzero|(a & Ha & Hin)].
    + split; [split; [exact Hlen|now left]|].
      unfold elems. replace (s_len s) with 0%nat by lia. reflexivity.
    + split.
      * split; [exact Hlen|]. right. exists a.
        rewrite lookup_app_l by (eapply lookup_lt_Some; exact Ha). easy.
      * unfold elems.
        rewrite lookup_app_l by (eapply lookup_lt_Some; exact Ha). reflexivity.
Qed.

(** The header [append] returns shows the old elements followed by the new
    one. *)
Lemma append_elems (h : arrays A) (s : slice) (x : A) :
  wf_slice h s ->
  elems (fst (append growslice zero h s x)) (snd (append growslice zero h s x))
  = elems h s ++ [x].
Proof.
  intros [Hlen Hcap]. unfold append.
  destruct (decide (s_len s < s_cap s)%nat) as [Hspare|Hfull]; simpl.
  - destruct Hcap as [Hzero|(a & Ha & Hin)]; [lia|].
    unfold elems. simpl. rewrite list_lookup_alter_eq, Ha. simpl.
    rewrite drop_insert_ge by lia.
    replace (s_off s + s_len s - s_off s)%nat with (s_len s) by lia.
    assert (Hlt : (s_len s < length (drop (s_off s) a))%nat)
      by (rewrite length_drop; lia).
    rewrite (take_S_r _ _ x) by (now rewrite list_lookup_insert_eq).
    rewrite take_insert_ge by lia. reflexivity.
  - assert (Hshown : length (elems h s) = s_len s).
    { unfold elems. destruct Hcap as [Hzero|(a & Ha & Hin)].
      - replace (s_len s) with 0%nat by lia. reflexivity.
      - rewrite Ha. simpl. rewrite length_take, length_drop. lia. }
    unfold elems at 1. simpl.
    rewrite lookup_app_r by lia. rewrite Nat.sub_diag. simpl.
    rewrite drop_0, cons_middle, app_assoc.
    apply take_app_length'. rewrite length_app, Hshown. simpl. lia.
Qed.

(** A property of every stored element, of the new element and of the zero
    value holds of every element stored after [append]. *)
Lemma append_Forall (P : A -> Prop) (h : arrays A) (s : slice) (x : A) :
  Forall (Forall P) h -> P x -> P zero ->
  Forall (Forall P) (fst (append growslice zero h s x)).
Proof.
  intros Hh Hx Hzero. unfold append.
  destruct (decide (s_len s < s_cap s)%nat); simpl.
  - apply Forall_alter; [exact Hh|].
    intros a _ Ha. now apply Forall_insert.
  - apply Forall_app. split; [exact Hh|].
    constructor; [|constructor].
    apply Forall_app. split.
    + unfold elems. apply Forall_take, Forall_drop.
      destruct (h !! s_arr s) as [a|] eqn:E; simpl; [|constructor].
      eapply Forall_lookup_1; eassumption.
    + constructor; [exact Hx|]. now apply Forall_replicate.
Qed.
End AppendFacts.

(** ** Properties of the world that the methods preserve *)

Section Invariant.
Variable I : world -> Prop.
Hypothesis I_stdout :
  forall w out, I w -> I (World (bullish_arrays w) (bearish_arrays w) out).

Lemma preserves_ret {A} (a : A) : preserves I (mret a).
Proof. intros w H. exact H. Qed.

Lemma preserves_lift {A} (o : outcome A) : preserves I (lift o).
Proof. intros w H. exact H. Qed.

Lemma preserves_Println (n : Z) (candles : list OHLC) :
  preserves I (Println n candles).
Proof. intros w H. simpl. now apply I_stdout. Qed.

Lemma preserves_bind {A B} (m : M A) (f : A -> M B) :
  preserves I m -> (forall a, preserves I (f a)) -> preserves I (m ≫= f).
Proof.
  intros Hm Hf w H. specialize (Hm w H).
  unfold mbind, M_bind. simpl.
  destruct (run m w) as [[a|p] w']; simpl in *.
  - now apply Hf.
  - exact Hm.
Qed.

Lemma preserves_when (b : bool) (body : M unit) :
  preserves I body -> preserves I (when b body).
Proof. intros H. destruct b; [exact H|apply preserves_ret]. Qed.

Lemma preserves_if_found {A}
    (call : outcome (A * option error)) (body : A -> M unit) :
  (forall a, preserves I (body a)) -> preserves I (if_found call body).
Proof.
  intros H. unfold if_found. apply preserves_bind; [apply preserves_lift|].
  intros r. destruct (not_ErrLastCandle (snd r)); [apply H|apply preserves_ret].
Qed.

Lemma preserves_call_by_value (method : M CandleChart) :
  preserves I method -> preserves I (call_by_value method).
Proof.
  intros H. unfold call_by_value. apply preserves_bind; [exact H|].
  intros _. apply preserves_ret.
Qed.

(** [DetectPatterns] preserves what every recording call it can make
    preserves: any bearish record, and any bullish record other than a
    [MorningDojiStar], which no rule passes. *)
Variable growslice : nat -> nat.
Variable cht : CandleChart.
Hypothesis I_bearish :
  forall candle pattern,
    preserves I (AddBearishPattern growslice cht candle pattern).
Hypothesis I_bullish :
  forall candle pattern,
    pattern <> MorningDojiStar ->
    preserves I (AddBullishPattern growslice cht candle pattern).

(** Statement by statement through a method body. *)
Ltac frame :=
  repeat first
    [ apply preserves_ret
    | apply preserves_lift
    | apply I_bearish
    | apply I_bullish; discriminate
    | apply preserves_call_by_value
    | apply preserves_when
    | apply preserves_if_found; intros ?
    | match goal with |- preserves _ (if ?b then _ else _) => destruct b end
    | apply preserves_bind; [|intros ?] ].

Lemma preserves_bearish_rules (lastCandle : OHLC) :
  preserves I (bearish_rules growslice cht lastCandle).
Proof. unfold bearish_rules. frame. Qed.

Lemma preserves_bullish_rules (lastCandle : OHLC) :
  preserves I (bullish_rules growslice cht lastCandle).
Proof. unfold bullish_rules. frame. Qed.

Lemma preserves_doji_rules (lastCandle : OHLC) :
  preserves I (doji_rules growslice cht lastCandle).
Proof. unfold doji_rules. frame. Qed.

Lemma preserves_DetectPatterns : preserves I (DetectPatterns growslice cht).
Proof.
  unfold DetectPatterns.
  apply preserves_bind; [apply preserves_Println|intros _].
  apply preserves_bind; [apply preserves_lift|intros patternCandles].
  apply preserves_bind; [apply preserves_lift|intros lastCandle].
  apply preserves_bind; [|intros _].
  - destruct (IsBearish lastCandle); [apply preserves_bearish_rules|].
    destruct (IsBullish lastCandle);
      [apply preserves_bullish_rules|apply preserves_ret].
  - apply preserves_when, preserves_doji_rules.
Qed.
End Invariant.

(** ** C2: the pattern lists of the caller's chart *)

(** The appends of the two recording methods go to a copy of the header of
    [cht]: what [cht] itself shows stays. *)
Lemma shows_AddBearishPattern (growslice : nat -> nat) (cht : CandleChart)
    (bullish : list BullishChartPattern) (bearish : list BearishChartPattern)
    (earliestCandle : OHLC) (pattern : BearishCandlestickPattern) :
  preserves (shows cht bullish bearish)
    (AddBearishPattern growslice cht earliestCandle pattern).
Proof.
  unfold AddBearishPattern. apply preserves_bind; [apply preserves_lift|].
  intros r. destruct (not_ErrLastCandle (snd r)); [|apply preserves_ret].
  intros w (Hbull & Hbear & Ebull & Ebear). simpl.
  match goal with |- context [append ?g ?z ?h ?s ?x] =>
    pose proof (append_frame g z h s x Hbear) as [Hwf Hsame];
    destruct (append g z h s x) as [h' s'] end.
  simpl in *. unfold shows. simpl. rewrite Hsame. easy.
Qed.

Lemma shows_AddBullishPattern (growslice : nat -> nat) (cht : CandleChart)
    (bullish : list BullishChartPattern) (bearish : list BearishChartPattern)
    (earliestCandle : OHLC) (pattern : BullishCandlestickPattern) :
  preserves (shows cht bullish bearish)
    (AddBullishPattern growslice cht earliestCandle pattern).
Proof.
  unfold AddBullishPattern. apply preserves_bind; [apply preserves_lift|].
  intros r. destruct (not_ErrLastCandle (snd r)); [|apply preserves_ret].
  intros w (Hbull & Hbear & Ebull & Ebear). simpl.
  match goal with |- context [append ?g ?z ?h ?s ?x] =>
    pose proof (append_frame g z h s x Hbull) as [Hwf Hsame];
    destruct (append g z h s x) as [h' s'] end.
  simpl in *. unfold shows. simpl. rewrite Hsame. easy.
Qed.

Lemma shows_perform (growslice : nat -> nat) (cht : CandleChart)
    (bullish : list BullishChartPattern) (bearish : list BearishChartPattern)
    (m : method_call) :
  preserves (shows cht bullish bearish) (perform growslice cht m).
Proof.
  destruct m; simpl.
  - apply preserves_DetectPatterns.
    + intros w out H. exact H.
    + intros candle pattern. apply shows_AddBearishPattern.
    + intros candle pattern _. apply shows_AddBullishPattern.
  - apply preserves_call_by_value, shows_AddBearishPattern.
  - apply preserves_call_by_value, shows_AddBullishPattern.
Qed.

Lemma perform_all_shows (growslice : nat -> nat) (cht : CandleChart)
    (calls : list method_call) :
  forall bullish bearish w,
    shows cht bullish bearish w ->
    shows cht bullish bearish (perform_all growslice cht calls w).
Proof.
  induction calls as [|m rest IH]; intros bl be w H; simpl.
  - exact H.
  - apply IH. now apply shows_perform.
Qed.

(** C2. A caller holds a chart [cht] and makes any sequence of calls to
    [DetectPatterns], [AddBearishPattern] and [AddBullishPattern] on it.
    The calls get the chart by value, so the caller's [cht], headers
    included, is the value it was; and the bullish and bearish patterns
    these headers show after the calls are the ones they showed before. *)
Theorem callers_pattern_lists_unchanged
    (growslice : nat -> nat) (cht : CandleChart) (calls : list method_call)
    (w : world) :
  wf_slice (bullish_arrays w) (BullishPatterns cht) ->
  wf_slice (bearish_arrays w) (BearishPatterns cht) ->
  elems (bullish_arrays (perform_all growslice cht calls w)) (BullishPatterns cht)
  = elems (bullish_arrays w) (BullishPatterns cht) /\
  elems (bearish_arrays (perform_all growslice cht calls w)) (BearishPatterns cht)
  = elems (bearish_arrays w) (BearishPatterns cht).
Proof.
  intros Hbull Hbear.
  destruct (perform_all_shows growslice cht calls _ _ w
              (conj Hbull (conj Hbear (conj eq_refl eq_refl))))
    as (_ & _ & Ebull & Ebear).
  now split.
Qed.

Lemma callers_pattern_lists_unchanged_witness :
  bearish_arrays
    (perform_all doubling roomy_six [Call_DetectPatterns; Call_DetectPatterns]
       roomy_world)
  = [[seen_before; doji_star_record; zero_bearish; zero_bearish]] /\
  elems (bearish_arrays roomy_world) (BearishPatterns roomy_six) = [seen_before] /\
  (elems (bullish_arrays
            (perform_all doubling roomy_six
               [Call_DetectPatterns; Call_DetectPatterns] roomy_world))
     (BullishPatterns roomy_six)
   = elems (bullish_arrays roomy_world) (BullishPatterns roomy_six) /\
   elems (bearish_arrays
            (perform_all doubling roomy_six
               [Call_DetectPatterns; Call_DetectPatterns] roomy_world))
     (BearishPatterns roomy_six)
   = elems (bearish_arrays roomy_world) (BearishPatterns roomy_six)).
Proof.
  split; [reflexivity|]. split; [reflexivity|].
  apply (callers_pattern_lists_unchanged doubling roomy_six
           [Call_DetectPatterns; Call_DetectPatterns] roomy_world).
  - split; [simpl; lia|]. left. reflexivity.
  - split; [simpl; lia|]. right. eexists. split; [reflexivity|]. simpl. lia.
Defined.

(** ** C5: recording a pattern *)

Lemma run_bind {A B} (m : M A) (f : A -> M B) (w : world) :
  run (m ≫= f) w =
  match run m w with
  | (Return a, w') => run (f a) w'
  | (Panicked p, w') => (Panicked p, w')
  end.
Proof. reflexivity. Qed.

(** From the first candle of a chart nothing is recorded and nothing is
    reported. *)
Lemma AddBearishPattern_first_candle (growslice : nat -> nat) (cht : CandleChart)
    (anchor : OHLC) (pattern : BearishCandlestickPattern) (w : world) :
  ID anchor = 0 ->
  run (AddBearishPattern growslice cht anchor pattern) w = (Return cht, w).
Proof.
  intros Hid. unfold AddBearishPattern, previousCandles.
  rewrite Hid. reflexivity.
Qed.

(** From a candle with three candles before it, the record is appended to
    the bearish list of the method's own chart; the list the passed chart
    shows is as before. *)
Lemma AddBearishPattern_records (growslice : nat -> nat) (cht : CandleChart)
    (anchor : OHLC) (pattern : BearishCandlestickPattern) (w : world) :
  3 <= ID anchor < len (Candles cht) -> len (Candles cht) <= max_int ->
  wf_slice (bearish_arrays w) (BearishPatterns cht) ->
  exists previousThree cht' w',
    previousCandles cht 3 anchor = Return (previousThree, None) /\
    run (AddBearishPattern growslice cht anchor pattern) w = (Return cht', w') /\
    elems (bearish_arrays w') (BearishPatterns cht')
    = elems (bearish_arrays w) (BearishPatterns cht)
      ++ [{| Pattern := pattern; PreceedingTrend := DetectTrend previousThree |}] /\
    elems (bearish_arrays w') (BearishPatterns cht)
    = elems (bearish_arrays w) (BearishPatterns cht) /\
    bullish_arrays w' = bullish_arrays w /\
    BullishPatterns cht' = BullishPatterns cht.
Proof.
  intros Hid Hlen Hwf.
  destruct (previousCandles_enough cht 3 anchor)
    as (previousThree & Hprev & _); [lia..|].
  unfold AddBearishPattern. rewrite run_bind. simpl. rewrite Hprev. simpl.
  match goal with |- context [append ?g ?z ?h ?s ?x] =>
    pose proof (append_frame g z h s x Hwf) as [_ Hsame];
    pose proof (append_elems g z h s x Hwf) as Hnew;
    destruct (append g z h s x) as [h' s'] end.
  simpl in *. eexists previousThree, _, _.
  split; [reflexivity|]. split; [reflexivity|]. simpl. easy.
Qed.

(** C5, on the code. From the second or the third candle of a chart, where
    fewer than three candles come before the anchor, neither recording
    method drops the match: both panic with an index out of range, and
    nothing is recorded. *)
Theorem AddPattern_panics_near_the_start
    (growslice : nat -> nat) (cht : CandleChart) (anchor : OHLC) (w : world) :
  0 < ID anchor < 3 ->
  ID anchor <= len (Candles cht) -> len (Candles cht) <= max_int ->
  (forall pattern,
     run (AddBearishPattern growslice cht anchor pattern) w
     = (Panicked (IndexOutOfRange (-1) (len (Candles cht))), w)) /\
  (forall pattern,
     run (AddBullishPattern growslice cht anchor pattern) w
     = (Panicked (IndexOutOfRange (-1) (len (Candles cht))), w)).
Proof.
  intros Hid Hin Hlen.
  pose proof (previousCandles_panics cht 3 anchor Hid Hin Hlen) as Hprev.
  split; intros pattern.
  - unfold AddBearishPattern. rewrite run_bind. simpl. now rewrite Hprev.
  - unfold AddBullishPattern. rewrite run_bind. simpl. now rewrite Hprev.
Qed.

Lemma AddPattern_panics_near_the_start_witness :
  run (AddBearishPattern doubling falling_five
         (set_ID (candle_of [9; 8]%float) 1) BearishEngulfingPattern) fresh_world
  = (Panicked (IndexOutOfRange (-1) 5), fresh_world).
Proof.
  apply (AddPattern_panics_near_the_start doubling falling_five
           (set_ID (candle_of [9; 8]%float) 1) fresh_world); evaluate.
Defined.

(** ** C1: a chart shorter than its pattern window *)

Lemma NewCandleChart_loop_fields (candles : list OHLC) :
  forall (i : Z) (c : CandleChart),
    MaxPatternCandles (NewCandleChart_loop i candles c) = MaxPatternCandles c /\
    BullishPatterns (NewCandleChart_loop i candles c) = BullishPatterns c /\
    BearishPatterns (NewCandleChart_loop i candles c) = BearishPatterns c.
Proof.
  induction candles as [|candle rest IH]; intros i c; simpl; [easy|].
  destruct (IH (i + 1) (push_Candle c (set_ID candle i))) as (-> & -> & ->).
  easy.
Qed.

(** A new chart scans five candles and its two pattern lists are empty, in
    every world. *)
Lemma NewCandleChart_fields (candles : list OHLC) :
  MaxPatternCandles (NewCandleChart candles) = 5 /\
  BullishPatterns (NewCandleChart candles) = empty_slice /\
  BearishPatterns (NewCandleChart candles) = empty_slice.
Proof. apply (NewCandleChart_loop_fields candles 0 empty_chart). Qed.

(** C1 as stated fails on the empty chart: [DetectPatterns] has no error
    result and the package has no error for a short chart; the call prints
    the chart and panics on the slice expression. *)
Lemma DetectPatterns_empty_chart_panics :
  run (DetectPatterns doubling (NewCandleChart [])) fresh_world
  = (Panicked (SliceBoundsOutOfRange (-5) 0), World [] [] [(0, [])]).
Proof. reflexivity. Qed.

(** C1, amended. For every chart with fewer candles than its
    [MaxPatternCandles], [DetectPatterns] prints the chart and panics with
    slice bounds out of range; it reports no error value, and it leaves
    the arrays of both pattern lists untouched. For a chart built by
    [NewCandleChart] from fewer than five candles, both pattern lists are
    empty afterwards as they were before. *)
Theorem DetectPatterns_short_chart_panics
    (growslice : nat -> nat) (cht : CandleChart) (w : world) :
  (len (Candles cht) < MaxPatternCandles cht ->
   MaxPatternCandles cht <= max_int ->
   run (DetectPatterns growslice cht) w
   = (Panicked (SliceBoundsOutOfRange
                  (len (Candles cht) - MaxPatternCandles cht) (len (Candles cht))),
      World (bullish_arrays w) (bearish_arrays w)
        (stdout w ++ [(len (Candles cht), Candles cht)]))) /\
  (forall candles,
     cht = NewCandleChart candles -> len candles < 5 ->
     fst (run (DetectPatterns growslice cht) w)
     = Panicked (SliceBoundsOutOfRange (len candles - 5) (len candles)) /\
     elems (bullish_arrays w) (BullishPatterns cht) = [] /\
     elems (bearish_arrays w) (BearishPatterns cht) = [] /\
     elems (bullish_arrays (snd (run (DetectPatterns growslice cht) w)))
       (BullishPatterns cht) = [] /\
     elems (bearish_arrays (snd (run (DetectPatterns growslice cht) w)))
       (BearishPatterns cht) = []).
Proof.
  assert (Hshort :
    len (Candles cht) < MaxPatternCandles cht ->
    MaxPatternCandles cht <= max_int ->
    run (DetectPatterns growslice cht) w
    = (Panicked (SliceBoundsOutOfRange
                   (len (Candles cht) - MaxPatternCandles cht) (len (Candles cht))),
       World (bullish_arrays w) (bearish_arrays w)
         (stdout w ++ [(len (Candles cht), Candles cht)]))).
  { intros Hlt Hmax. unfold DetectPatterns.
    rewrite run_bind. simpl.
    pose proof (len_nonneg (Candles cht)) as Hlen.
    no_wrap.
    unfold slice_expr.
    destruct (Z.ltb_spec (len (Candles cht) - MaxPatternCandles cht) 0); [|lia].
    reflexivity. }
  split; [exact Hshort|].
  intros candles -> Hfew.
  destruct (NewCandleChart_fields candles) as (Hmax & Hbull & Hbear).
  rewrite Hshort, Hmax, NewCandleChart_len, Hbull, Hbear.
  - repeat split.
  - rewrite Hmax, NewCandleChart_len. exact Hfew.
  - rewrite Hmax. evaluate.
Qed.

Lemma DetectPatterns_short_chart_panics_witness :
  run (DetectPatterns doubling (NewCandleChart [candle_of [12; 18]%float])) fresh_world
  = (Panicked (SliceBoundsOutOfRange (-4) 1),
     World [] [] [(1, [set_ID (candle_of [12; 18]%float) 0])]).
Proof.
  apply (proj1 (DetectPatterns_short_chart_panics doubling
                  (NewCandleChart [candle_of [12; 18]%float]) fresh_world));
    evaluate.
Defined.

(** ** C6: the doji star that ends in a bullish candle *)

Lemma no_MorningDojiStar_AddBearishPattern (growslice : nat -> nat)
    (cht : CandleChart) (candle : OHLC) (pattern : BearishCandlestickPattern) :
  preserves no_MorningDojiStar (AddBearishPattern growslice cht candle pattern).
Proof.
  unfold AddBearishPattern. apply preserves_bind; [apply preserves_lift|].
  intros r. destruct (not_ErrLastCandle (snd r)); [|apply preserves_ret].
  intros w H. simpl.
  match goal with |- context [append ?g ?z ?h ?s ?x] =>
    destruct (append g z h s x) as [h' s'] end.
  exact H.
Qed.

Lemma no_MorningDojiStar_AddBullishPattern (growslice : nat -> nat)
    (cht : CandleChart) (candle : OHLC) (pattern : BullishCandlestickPattern) :
  pattern <> MorningDojiStar ->
  preserves no_MorningDojiStar (AddBullishPattern growslice cht candle pattern).
Proof.
  intros Hne. unfold AddBullishPattern.
  apply preserves_bind; [apply preserves_lift|].
  intros r. destruct (not_ErrLastCandle (snd r)); [|apply preserves_ret].
  intros w H. simpl.
  match goal with |- context [append ?g ?z ?h ?s ?x] =>
    pose proof (append_Forall g z
                  (fun r : BullishChartPattern => Pattern r <> MorningDojiStar)
                  h s x H) as Hall;
    destruct (append g z h s x) as [h' s'] end.
  apply Hall; [exact Hne|discriminate].
Qed.

(** Whatever the chart, [DetectPatterns] records no [MorningDojiStar]: no
    rule passes that pattern to [AddBullishPattern]. *)
Lemma DetectPatterns_never_records_MorningDojiStar
    (growslice : nat -> nat) (cht : CandleChart) :
  preserves no_MorningDojiStar (DetectPatterns growslice cht).
Proof.
  apply preserves_DetectPatterns.
  - intros w out H. exact H.
  - intros candle pattern. apply no_MorningDojiStar_AddBearishPattern.
  - intros candle pattern. apply no_MorningDojiStar_AddBullishPattern.
Qed.

(** C6, on the code. In [doji_star_six] the last candle is bullish, the
    candle before it is a doji, the one before that is bearish, and the
    mirrored doji-star conditions hold. [DetectPatterns] then writes one
    record: an [EveningDojiStar] in a bearish array. No bullish array is
    written, and no [MorningDojiStar] is recorded anywhere. *)
Theorem DetectPatterns_bullish_doji_star :
  (exists thirdCandle previousCandle' lastCandle,
     Candles doji_star_six !! 3%nat = Some thirdCandle /\
     Candles doji_star_six !! 4%nat = Some previousCandle' /\
     Candles doji_star_six !! 5%nat = Some lastCandle /\
     len (Candles doji_star_six) = 6 /\
     IsBullish lastCandle = true /\
     IsDoji previousCandle' = true /\
     IsBearish thirdCandle = true /\
     (High previousCandle' <? Close thirdCandle)%float = true /\
     (Open lastCandle >? Close previousCandle')%float = true /\
     (Close lastCandle <? Open thirdCandle)%float = true) /\
  run (DetectPatterns doubling doji_star_six) fresh_world
  = (Return tt,
     World [] [[{| Pattern := EveningDojiStar; PreceedingTrend := Bearish |}]]
       [(6, Candles doji_star_six)]).
Proof.
  split; [|reflexivity].
  do 3 eexists. repeat split; reflexivity.
Qed.

(** * Further properties of [charts.go] *)

(** ** [Max64] and [Min64] *)

Lemma float_ltb_asym (a b : float) :
  (a <? b)%float = true -> (b <? a)%float = false.
Proof.
  intros Hab. destruct (b <? a)%float eqn:Hba; [|reflexivity].
  pose proof (float_ltb_trans _ _ _ Hab Hba) as H.
  now rewrite float_ltb_irrefl in H.
Qed.

(** X1. [Max64] and [Min64] return 0 for the empty list. For a non-empty
    list each returns one of the values; no value is greater than [Max64],
    none is smaller than [Min64], and [Min64] is not greater than
    [Max64]. *)
Theorem Max64_Min64_extremes (a : list float) :
  Max64 [] = 0%float /\ Min64 [] = 0%float /\
  (a <> [] ->
   Max64 a ∈ a /\ Min64 a ∈ a /\
   (forall v, v ∈ a ->
      (v >? Max64 a)%float = false /\ (v <? Min64 a)%float = false) /\
   (Min64 a >? Max64 a)%float = false).
Proof.
  split; [reflexivity|]. split; [reflexivity|]. intros Hne.
  destruct (Max64_greatest a Hne) as [Hmax_in Hmax].
  destruct (Min64_least a Hne) as [Hmin_in Hmin].
  repeat split; auto.
Qed.

Lemma Max64_Min64_extremes_witness :
  Max64 [12; 18; 11.5]%float = 18%float /\
  Min64 [12; 18; 11.5]%float = 11.5%float /\
  (Min64 [12; 18; 11.5] >? Max64 [12; 18; 11.5])%float = false.
Proof.
  split; [reflexivity|]. split; [reflexivity|].
  apply (proj2 (proj2 (Max64_Min64_extremes [12; 18; 11.5]%float))).
  discriminate.
Defined.

(** ** [Engulfs] *)

(** X2. [Engulfs] is a strict order on candles: no candle engulfs itself,
    two candles never engulf each other (so the engulfing test and the
    harami test of one pair cannot both succeed), and engulfing is
    transitive. *)
Theorem Engulfs_strict_order (a b c : OHLC) :
  Engulfs a a = false /\
  (Engulfs a b = true -> Engulfs b a = false) /\
  (Engulfs a b = true -> Engulfs b c = true -> Engulfs a c = true).
Proof.
  unfold Engulfs. split; [|split].
  - now rewrite float_ltb_irrefl.
  - destruct (High a >? High b)%float eqn:Hh; [|discriminate].
    intros _. now rewrite (float_ltb_asym _ _ Hh).
  - destruct (High a >? High b)%float eqn:Hab; [|discriminate].
    destruct (Low a <? Low b)%float eqn:Lab; [|discriminate].
    destruct (High b >? High c)%float eqn:Hbc; [|discriminate].
    destruct (Low b <? Low c)%float eqn:Lbc; [|discriminate].
    intros _ _.
    now rewrite (float_ltb_trans _ _ _ Hbc Hab), (float_ltb_trans _ _ _ Lab Lbc).
Qed.

Lemma Engulfs_strict_order_witness :
  Engulfs wide_candle narrow_candle = true /\
  Engulfs narrow_candle wide_candle = false /\
  Engulfs wider_candle narrow_candle = true.
Proof.
  split; [reflexivity|]. split.
  - apply (proj1 (proj2 (Engulfs_strict_order wide_candle narrow_candle
                           wider_candle))).
    reflexivity.
  - apply (proj2 (proj2 (Engulfs_strict_order wider_candle wide_candle
                           narrow_candle))); reflexivity.
Defined.

(** ** [AllBullish], [AllBearish] and [DetectTrend] *)

Lemma DetectTrend_counts (candles : list OHLC) :
  DetectTrend candles =
  (if count IsBearish candles <? count IsBullish candles then Bullish
   else if count IsBullish candles <? count IsBearish candles then Bearish
   else Indifferent).
Proof.
  unfold DetectTrend. rewrite DetectTrend_loop_counts. simpl.
  destruct (_ <? _); [reflexivity|].
  destruct (_ <? _); [reflexivity|].
  now destruct (_ =? _).
Qed.

Lemma count_nonneg (f : OHLC -> bool) (candles : list OHLC) :
  0 <= count f candles.
Proof. apply len_nonneg. Qed.

Lemma count_none (f : OHLC -> bool) (candles : list OHLC) :
  (forall c, c ∈ candles -> f c = false) -> count f candles = 0.
Proof.
  induction candles as [|candle rest IH]; intros H; [reflexivity|].
  rewrite count_cons, (H candle) by constructor.
  rewrite IH; [reflexivity|]. intros c Hc. apply H. now constructor.
Qed.

Lemma AllBullish_iff (candles : list OHLC) :
  AllBullish candles = true <-> forall c, c ∈ candles -> IsBearish c = false.
Proof.
  induction candles as [|candle rest IH]; simpl.
  - split; [|reflexivity]. intros _ c Hc. inversion Hc.
  - destruct (IsBearish candle) eqn:E.
    + split; [discriminate|]. intros H.
      rewrite (H candle) in E by constructor. discriminate.
    + rewrite IH. split.
      * intros H c Hc. apply elem_of_cons in Hc as [->|Hc]; auto.
      * intros H c Hc. apply H. now constructor.
Qed.

Lemma AllBearish_iff (candles : list OHLC) :
  AllBearish candles = true <-> forall c, c ∈ candles -> IsBullish c = false.
Proof.
  induction candles as [|candle rest IH]; simpl.
  - split; [|reflexivity]. intros _ c Hc. inversion Hc.
  - destruct (IsBullish candle) eqn:E.
    + split; [discriminate|]. intros H.
      rewrite (H candle) in E by constructor. discriminate.
    + rewrite IH. split.
      * intros H c Hc. apply elem_of_cons in Hc as [->|Hc]; auto.
      * intros H c Hc. apply H. now constructor.
Qed.

(** X3. [AllBullish] holds exactly when no candle of the list is bearish,
    and [AllBearish] exactly when none is bullish: both hold for the empty
    list and for candles that are neither. When [AllBullish] holds
    [DetectTrend] is never Bearish, when [AllBearish] holds it is never
    Bullish, and when both hold it is Indifferent. *)
Theorem AllBullish_AllBearish_DetectTrend (candles : list OHLC) :
  (AllBullish candles = true <->
   forall c, c ∈ candles -> IsBearish c = false) /\
  (AllBearish candles = true <->
   forall c, c ∈ candles -> IsBullish c = false) /\
  (AllBullish candles = true -> DetectTrend candles <> Bearish) /\
  (AllBearish candles = true -> DetectTrend candles <> Bullish) /\
  (AllBullish candles = true -> AllBearish candles = true ->
   DetectTrend candles = Indifferent).
Proof.
  split; [apply AllBullish_iff|]. split; [apply AllBearish_iff|].
  pose proof (count_nonneg IsBullish candles) as Hbull.
  pose proof (count_nonneg IsBearish candles) as Hbear.
  rewrite DetectTrend_counts. repeat split.
  - intros H. rewrite (count_none _ _ (proj1 (AllBullish_iff _) H)).
    destruct (Z.ltb_spec 0 (count IsBullish candles)); [discriminate|].
    destruct (Z.ltb_spec (count IsBullish candles) 0); [lia|discriminate].
  - intros H. rewrite (count_none _ _ (proj1 (AllBearish_iff _) H)).
    destruct (Z.ltb_spec (count IsBearish candles) 0); [lia|].
    destruct (Z.ltb_spec 0 (count IsBearish candles)); discriminate.
  - intros H1 H2.
    now rewrite (count_none _ _ (proj1 (AllBullish_iff _) H1)),
                (count_none _ _ (proj1 (AllBearish_iff _) H2)).
Qed.

Lemma AllBullish_AllBearish_DetectTrend_witness :
  AllBullish [candle_of [12; 18]%float; candle_of [18; 25]%float] = true /\
  DetectTrend [candle_of [12; 18]%float; candle_of [18; 25]%float] <> Bearish.
Proof.
  split; [reflexivity|].
  apply (proj1 (proj2 (proj2 (AllBullish_AllBearish_DetectTrend
           [candle_of [12; 18]%float; candle_of [18; 25]%float])))).
  reflexivity.
Defined.

Lemma count_Permutation (f : OHLC -> bool) (candles candles' : list OHLC) :
  candles ≡ₚ candles' -> count f candles = count f candles'.
Proof.
  induction 1 as [|c l l' _ IH|c c' l|l l' l'' _ IH1 _ IH2].
  - reflexivity.
  - now rewrite !count_cons, IH.
  - rewrite !count_cons. lia.
  - now rewrite IH1.
Qed.

(** X4. [DetectTrend] does not depend on the order of the candles: two
    lists with the same candles in any order have the same trend, so the
    nearest-first look-back has the trend of the same candles in time
    order. *)
Theorem DetectTrend_any_order (candles candles' : list OHLC) :
  (candles ≡ₚ candles' -> DetectTrend candles = DetectTrend candles') /\
  DetectTrend (reverse candles) = DetectTrend candles.
Proof.
  assert (H : forall l l' : list OHLC, l ≡ₚ l' -> DetectTrend l = DetectTrend l').
  { intros l l' Hp. rewrite !DetectTrend_counts.
    now rewrite (count_Permutation IsBullish l l' Hp),
                (count_Permutation IsBearish l l' Hp). }
  split; [apply H|]. apply H, reverse_Permutation.
Qed.

Lemma DetectTrend_any_order_witness :
  DetectTrend [candle_of [12; 18]%float; candle_of [9; 8]%float; candle_of [8; 7]%float]
  = DetectTrend [candle_of [9; 8]%float; candle_of [8; 7]%float; candle_of [12; 18]%float].
Proof.
  apply (proj1 (DetectTrend_any_order
           [candle_of [12; 18]%float; candle_of [9; 8]%float; candle_of [8; 7]%float]
           [candle_of [9; 8]%float; candle_of [8; 7]%float; candle_of [12; 18]%float])).
  apply (Permutation_cons_append [candle_of [9; 8]%float; candle_of [8; 7]%float]).
Defined.

Lemma count_both (candles : list OHLC) :
  (forall c, c ∈ candles -> IsBullish c = true \/ IsBearish c = true) ->
  count IsBullish candles + count IsBearish candles = len candles.
Proof.
  induction candles as [|candle rest IH]; intros H; [reflexivity|].
  rewrite !count_cons.
  replace (len (candle :: rest)) with (1 + len rest) by (unfold len; simpl; lia).
  rewrite <- IH by (intros c Hc; apply H; now constructor).
  destruct (H candle) as [E|E]; [constructor| |].
  - rewrite E. destruct (IsBearish candle) eqn:E'; [|lia].
    apply IsBearish_not_IsBullish in E'. congruence.
  - rewrite E, (IsBearish_not_IsBullish _ E). lia.
Qed.

(** X5. For an odd number of candles that are each bullish or bearish (as
    every candle [doOHLC] builds is), [DetectTrend] is never Indifferent:
    the reason the source asks for an odd number of candles. *)
Theorem DetectTrend_odd_is_decided (candles : list OHLC) :
  (forall c, c ∈ candles -> IsBullish c = true \/ IsBearish c = true) ->
  Z.odd (len candles) = true ->
  DetectTrend candles <> Indifferent.
Proof.
  intros Hall Hodd. rewrite DetectTrend_counts.
  pose proof (count_both candles Hall) as Hsum.
  destruct (Z.ltb_spec (count IsBearish candles) (count IsBullish candles));
    [discriminate|].
  destruct (Z.ltb_spec (count IsBullish candles) (count IsBearish candles));
    [discriminate|].
  exfalso.
  assert (E : len candles = 2 * count IsBullish candles) by lia.
  rewrite E, Z.odd_mul in Hodd. discriminate.
Qed.

Lemma DetectTrend_odd_is_decided_witness :
  DetectTrend [candle_of [12; 18]%float; candle_of [9; 8]%float; candle_of [8; 7]%float]
  <> Indifferent.
Proof.
  apply DetectTrend_odd_is_decided.
  - intros c Hc. repeat (apply elem_of_cons in Hc as [->|Hc]);
      [left; reflexivity|right; reflexivity|right; reflexivity|inversion Hc].
  - reflexivity.
Defined.

(** ** Stepping through a chart *)

Lemma NewCandleChart_indexed (candles : list OHLC) :
  len candles <= max_int -> indexed (NewCandleChart candles).
Proof.
  intros Hlen. split; [now rewrite NewCandleChart_len|].
  intros i c. rewrite NewCandleChart_Candles, list_lookup_imap.
  destruct (candles !! i); simpl; [|discriminate]. now intros [= <-].
Qed.

(** X6. In a chart whose candles carry their positions, [previousCandle]
    of the first candle reports [ErrLastCandle] with the zero candle, and
    [previousCandle] of the candle at position [j + 1] returns the candle
    at position [j], whose ID is one less, without an error. *)
Theorem previousCandle_steps_back (cht : CandleChart) (i : nat) (c : OHLC) :
  indexed cht -> Candles cht !! i = Some c ->
  (i = 0%nat -> previousCandle cht c = Return (zero_OHLC, Some ErrLastCandle)) /\
  (forall j, i = S j ->
   exists p, Candles cht !! j = Some p /\ ID p = ID c - 1 /\
             previousCandle cht c = Return (p, None)).
Proof.
  intros [Hlen Hid] Hc. pose proof (Hid i c Hc) as Hi.
  pose proof (lookup_lt_Some _ _ _ Hc) as Hlt. split.
  - intros ->. unfold previousCandle. now rewrite Hi.
  - intros j ->.
    destruct (previousCandle_of_chart_candle cht c) as (p & Hp & Hprev);
      [unfold len; lia|exact Hlen|].
    replace (Z.to_nat (ID c - 1)) with j in Hp by lia.
    exists p. split; [exact Hp|]. split; [|exact Hprev].
    rewrite (Hid j p Hp). lia.
Qed.

Lemma previousCandle_steps_back_witness :
  exists p, Candles falling_five !! 3%nat = Some p /\
            ID p = ID (set_ID (candle_of [6; 5]%float) 4) - 1 /\
            previousCandle falling_five (set_ID (candle_of [6; 5]%float) 4)
            = Return (p, None).
Proof.
  assert (Hidx : indexed falling_five)
    by (apply NewCandleChart_indexed; evaluate).
  assert (Hc : Candles falling_five !! 4%nat
               = Some (set_ID (candle_of [6; 5]%float) 4)) by reflexivity.
  exact (proj2 (previousCandle_steps_back falling_five 4
                  (set_ID (candle_of [6; 5]%float) 4) Hidx Hc) 3%nat eq_refl).
Defined.

(** X7. [nextCandles] never returns a candle, whatever the chart, the
    count and the candle: it reports [ErrLastCandle], or returns an empty
    list, or panics on the index; from a candle of the chart it reports
    [ErrLastCandle], also when candles follow. *)
Theorem nextCandles_never_returns_a_candle
    (cht : CandleChart) (num : Z) (current : OHLC) :
  (nextCandles cht num current = Return ([], Some ErrLastCandle) \/
   nextCandles cht num current = Return ([], None) \/
   nextCandles cht num current =
     Panicked (IndexOutOfRange (wrap (ID current + 1)) (len (Candles cht)))) /\
  (0 <= ID current < len (Candles cht) -> len (Candles cht) <= max_int ->
   nextCandles cht num current = Return ([], Some ErrLastCandle)).
Proof.
  unfold nextCandles. split.
  - destruct (Z.leb_spec (wrap (ID current + 1)) (len (Candles cht))) as [H|H];
      [now left|].
    destruct (num =? 1); [|now right; left].
    right. right. now rewrite index_beyond by lia.
  - intros Hid Hlen. no_wrap.
    destruct (Z.leb_spec (ID current + 1) (len (Candles cht))); [reflexivity|lia].
Qed.

Lemma nextCandles_never_returns_a_candle_witness :
  nextCandles falling_five 2 (set_ID (candle_of [10; 9]%float) 0)
  = Return ([], Some ErrLastCandle).
Proof.
  apply (proj2 (nextCandles_never_returns_a_candle falling_five 2
                  (set_ID (candle_of [10; 9]%float) 0))); evaluate.
Defined.

(** ** The pattern window *)

Lemma wrap_above (z : Z) :
  max_int < z <= 2 ^ 64 - 1 -> wrap z = z - 2 ^ 64.
Proof.
  unfold max_int, wrap. intros Hz.
  replace (z + 2 ^ 63) with (z + 2 ^ 63 - 2 ^ 64 + 1 * 2 ^ 64) by lia.
  rewrite Z.mod_add by lia. rewrite Z.mod_small by lia. lia.
Qed.

(** X8. With a [MaxPatternCandles] of zero or less, [DetectPatterns] prints
    the chart and panics before looking at a candle, whatever the chart
    holds: on the index of the last window candle when it is zero, on the
    slice bounds when it is negative. The arrays of the pattern lists are
    left as they were. *)
Theorem DetectPatterns_needs_a_window
    (growslice : nat -> nat) (cht : CandleChart) (w : world) :
  min_int <= MaxPatternCandles cht <= 0 -> len (Candles cht) <= max_int ->
  exists p,
    run (DetectPatterns growslice cht) w
    = (Panicked p,
       World (bullish_arrays w) (bearish_arrays w)
         (stdout w ++ [(len (Candles cht), Candles cht)])) /\
    (MaxPatternCandles cht = 0 -> p = IndexOutOfRange (-1) 0) /\
    (MaxPatternCandles cht < 0 ->
     exists lo, p = SliceBoundsOutOfRange lo (len (Candles cht))).
Proof.
  intros Hmax Hlen. pose proof (len_nonneg (Candles cht)) as Hpos.
  unfold DetectPatterns. rewrite run_bind. simpl.
  destruct (Z.eq_dec (MaxPatternCandles cht) 0) as [E|NE].
  - rewrite E, Z.sub_0_r. no_wrap. unfold slice_expr.
    destruct (Z.ltb_spec (len (Candles cht)) 0); [lia|].
    rewrite Z.ltb_irrefl, Z.sub_diag. simpl.
    eexists. split; [reflexivity|]. split; [reflexivity|lia].
  - unfold slice_expr.
    assert (Hout : (wrap (len (Candles cht) - MaxPatternCandles cht) <? 0)
                   || (len (Candles cht)
                       <? wrap (len (Candles cht) - MaxPatternCandles cht)) = true).
    { destruct (Z_le_gt_dec (len (Candles cht) - MaxPatternCandles cht) max_int).
      - no_wrap. apply orb_true_iff. right. apply Z.ltb_lt. lia.
      - rewrite wrap_above by (unfold min_int, max_int in *; lia).
        apply orb_true_iff. left. apply Z.ltb_lt.
        unfold min_int, max_int in *. lia. }
    rewrite Hout. eexists. split; [reflexivity|]. split; [lia|].
    intros _. eexists. reflexivity.
Qed.

Lemma DetectPatterns_needs_a_window_witness :
  run (DetectPatterns doubling windowless_five) fresh_world
  = (Panicked (IndexOutOfRange (-1) 0),
     World [] [] [(5, Candles windowless_five)]).
Proof.
  destruct (DetectPatterns_needs_a_window doubling windowless_five fresh_world)
    as (p & Hrun & Hzero & _); [evaluate|evaluate|].
  rewrite Hrun, (Hzero eq_refl). reflexivity.
Defined.

(** ** Recording from the first candle and from later ones *)

(** X9. With the first candle of a chart as anchor (ID 0), both recording
    methods return without recording anything and without reporting
    anything: the chart copy and the world are as they were. *)
Theorem AddPattern_from_first_candle
    (growslice : nat -> nat) (cht : CandleChart) (anchor : OHLC) (w : world) :
  ID anchor = 0 ->
  (forall pattern,
     run (AddBearishPattern growslice cht anchor pattern) w = (Return cht, w)) /\
  (forall pattern,
     run (AddBullishPattern growslice cht anchor pattern) w = (Return cht, w)).
Proof.
  intros Hid. split; intros pattern.
  - unfold AddBearishPattern, previousCandles. now rewrite Hid.
  - unfold AddBullishPattern, previousCandles. now rewrite Hid.
Qed.

Lemma AddPattern_from_first_candle_witness :
  run (AddBullishPattern doubling falling_five
         (set_ID (candle_of [10; 9]%float) 0) BullishHarami) fresh_world
  = (Return falling_five, fresh_world).
Proof.
  apply (AddPattern_from_first_candle doubling falling_five
           (set_ID (candle_of [10; 9]%float) 0) fresh_world).
  reflexivity.
Defined.

(** X10. With an anchor that has at least three candles before it, each
    recording method appends one record to the list of its own copy of the
    chart: the pattern it was given with the [DetectTrend] of the three
    candles just before the anchor. The other list, the candles and what
    was printed are untouched. *)
Theorem AddPattern_records_the_preceding_trend
    (growslice : nat -> nat) (cht : CandleChart) (anchor : OHLC) (w : world) :
  3 <= ID anchor < len (Candles cht) -> len (Candles cht) <= max_int ->
  exists previousThree,
    previousCandles cht 3 anchor = Return (previousThree, None) /\
    len previousThree = 3 /\
    (forall i, 0 <= i < 3 ->
       previousThree !! Z.to_nat i = Candles cht !! Z.to_nat (ID anchor - 1 - i)) /\
    (forall pattern,
       wf_slice (bearish_arrays w) (BearishPatterns cht) ->
       exists cht' w',
         run (AddBearishPattern growslice cht anchor pattern) w = (Return cht', w') /\
         elems (bearish_arrays w') (BearishPatterns cht')
         = elems (bearish_arrays w) (BearishPatterns cht)
           ++ [{| Pattern := pattern;
                  PreceedingTrend := DetectTrend previousThree |}] /\
         bullish_arrays w' = bullish_arrays w /\ stdout w' = stdout w /\
         Candles cht' = Candles cht /\
         BullishPatterns cht' = BullishPatterns cht) /\
    (forall pattern,
       wf_slice (bullish_arrays w) (BullishPatterns cht) ->
       exists cht' w',
         run (AddBullishPattern growslice cht anchor pattern) w = (Return cht', w') /\
         elems (bullish_arrays w') (BullishPatterns cht')
         = elems (bullish_arrays w) (BullishPatterns cht)
           ++ [{| Pattern := pattern;
                  PreceedingTrend := DetectTrend previousThree |}] /\
         bearish_arrays w' = bearish_arrays w /\ stdout w' = stdout w /\
         Candles cht' = Candles cht /\
         BearishPatterns cht' = BearishPatterns cht).
Proof.
  intros Hid Hlen.
  destruct (previousCandles_enough cht 3 anchor)
    as (previousThree & Hprev & Hthree & Hnth); [lia..|].
  exists previousThree. split; [exact Hprev|]. split; [exact Hthree|].
  split; [exact Hnth|]. split; intros pattern Hwf.
  - unfold AddBearishPattern. rewrite run_bind. simpl. rewrite Hprev. simpl.
    match goal with |- context [append ?g ?z ?h ?s ?x] =>
      pose proof (append_elems g z h s x Hwf) as Hnew;
      destruct (append g z h s x) as [h' s'] end.
    do 2 eexists. split; [reflexivity|]. simpl in *. easy.
  - unfold AddBullishPattern. rewrite run_bind. simpl. rewrite Hprev. simpl.
    match goal with |- context [append ?g ?z ?h ?s ?x] =>
      pose proof (append_elems g z h s x Hwf) as Hnew;
      destruct (append g z h s x) as [h' s'] end.
    do 2 eexists. split; [reflexivity|]. simpl in *. easy.
Qed.

Lemma AddPattern_records_the_preceding_trend_witness :
  exists previousThree,
    previousCandles roomy_six 3 (set_ID (candle_of [20; 15]%float) 3)
    = Return (previousThree, None) /\
    exists cht' w',
      run (AddBearishPattern doubling roomy_six
             (set_ID (candle_of [20; 15]%float) 3) BearishHarami) roomy_world
      = (Return cht', w') /\
      elems (bearish_arrays w') (BearishPatterns cht')
      = elems (bearish_arrays roomy_world) (BearishPatterns roomy_six)
        ++ [{| Pattern := BearishHarami;
               PreceedingTrend := DetectTrend previousThree |}].
Proof.
  destruct (AddPattern_records_the_preceding_trend doubling roomy_six
              (set_ID (candle_of [20; 15]%float) 3) roomy_world)
    as (previousThree & Hprev & _ & _ & Hbear & _); [evaluate|evaluate|].
  exists previousThree. split; [exact Hprev|].
  destruct (Hbear BearishHarami) as (cht' & w' & Hrun & Helems & _).
  - split; [simpl; lia|]. right. eexists. split; [reflexivity|]. simpl. lia.
  - exists cht', w'. now split.
Defined.

(** ** The start time of a candle *)

(** X11. Every candle [doOHLC] builds covers one hour and starts on the
    hour: its time is the start time rounded down to a multiple of an hour
    since the zero time, at most an hour before the start time; the second
    truncation, to the minute, changes nothing. *)
Theorem doOHLC_starts_on_the_hour
    (startTime : time_Time) (prices : list float) (volume : float) (candle : OHLC) :
  doOHLC startTime prices volume = Return candle ->
  Period candle = Hour /\
  Time candle = Truncate startTime Hour /\
  Time candle mod Hour = 0 /\
  Time candle mod Minute = 0 /\
  Time candle <= startTime < Time candle + Hour.
Proof.
  unfold doOHLC. intros H.
  destruct (index prices (wrap (len prices - 1))) as [close|]; [|discriminate].
  destruct (index prices 0) as [open|]; [|discriminate].
  simpl in H. injection H as <-. simpl.
  split; [reflexivity|].
  assert (Hhour : Hour = 60 * Minute) by reflexivity.
  assert (Hmin : 0 < Minute) by reflexivity.
  unfold Truncate.
  destruct (Z.leb_spec Hour 0) as [Hneg|_]; [lia|].
  destruct (Z.leb_spec Minute 0) as [Hneg|_]; [lia|].
  pose proof (Z.mod_pos_bound startTime Hour ltac:(lia)) as Hbound.
  pose proof (Z.div_mod startTime Hour ltac:(lia)) as Hdiv.
  assert (Hmult : startTime - startTime mod Hour = (startTime / Hour * 60) * Minute)
    by lia.
  assert (Hrem : (startTime - startTime mod Hour) mod Minute = 0)
    by (rewrite Hmult; apply Z.mod_mul; lia).
  rewrite Hrem, Z.sub_0_r.
  split; [reflexivity|]. split.
  - replace (startTime - startTime mod Hour) with (startTime / Hour * Hour) by lia.
    apply Z.mod_mul. lia.
  - split; [exact Hrem|lia].
Qed.

Lemma doOHLC_starts_on_the_hour_witness :
  Time (match doOHLC 7384000000000 [12; 18]%float 1%float with
        | Return candle => candle
        | Panicked _ => zero_OHLC
        end) = 7200000000000.
Proof.
  assert (H : doOHLC 7384000000000 [12; 18]%float 1%float
              = Return (match doOHLC 7384000000000 [12; 18]%float 1%float with
                        | Return candle => candle
                        | Panicked _ => zero_OHLC
                        end)) by reflexivity.
  destruct (doOHLC_starts_on_the_hour _ _ _ _ H) as (_ & -> & _).
  reflexivity.
Defined.

(** ** Building a chart *)

Lemma NewCandleChart_loop_ext (candles : list OHLC) :
  forall (candles' : list OHLC) (i : Z) (c : CandleChart),
    map (fun x => set_ID x 0) candles = map (fun x => set_ID x 0) candles' ->
    NewCandleChart_loop i candles c = NewCandleChart_loop i candles' c.
Proof.
  induction candles as [|x rest IH]; intros [|x' rest'] i c H;
    try discriminate; [reflexivity|].
  simpl in *.
  assert (Hx : set_ID x 0 = set_ID x' 0) by congruence.
  assert (Hrest : map (fun x => set_ID x 0) rest = map (fun x => set_ID x 0) rest')
    by congruence.
  change (set_ID x i) with (set_ID (set_ID x 0) i).
  rewrite Hx. change (set_ID (set_ID x' 0) i) with (set_ID x' i).
  now apply IH.
Qed.

(** X12. [NewCandleChart] keeps the number of candles, scans five candles
    by default and starts with both pattern lists empty in every world.
    It reads no ID of the batch: batches that differ only in their IDs
    give the same chart, and building a chart again from a chart's candles
    gives the same chart. *)
Theorem NewCandleChart_reads_no_ID (candles : list OHLC) :
  len (Candles (NewCandleChart candles)) = len candles /\
  MaxPatternCandles (NewCandleChart candles) = 5 /\
  (forall w,
     elems (bullish_arrays w) (BullishPatterns (NewCandleChart candles)) = [] /\
     elems (bearish_arrays w) (BearishPatterns (NewCandleChart candles)) = []) /\
  (forall candles',
     map (fun x => set_ID x 0) candles = map (fun x => set_ID x 0) candles' ->
     NewCandleChart candles = NewCandleChart candles') /\
  NewCandleChart (Candles (NewCandleChart candles)) = NewCandleChart candles.
Proof.
  destruct (NewCandleChart_fields candles) as (Hmax & Hbull & Hbear).
  split; [apply NewCandleChart_len|]. split; [exact Hmax|].
  split; [intros w; now rewrite Hbull, Hbear|].
  split.
  - intros candles' H. now apply NewCandleChart_loop_ext.
  - apply NewCandleChart_loop_ext.
    rewrite NewCandleChart_Candles. apply list_eq. intros i.
    rewrite !list_lookup_fmap, list_lookup_imap.
    now destruct (candles !! i).
Qed.

Lemma NewCandleChart_reads_no_ID_witness :
  NewCandleChart [set_ID (candle_of [12; 18]%float) 7; candle_of [9; 8]%float]
  = NewCandleChart [candle_of [12; 18]%float; set_ID (candle_of [9; 8]%float) 3].
Proof.
  apply (proj1 (proj2 (proj2 (proj2 (NewCandleChart_reads_no_ID
           [set_ID (candle_of [12; 18]%float) 7; candle_of [9; 8]%float]))))).
  reflexivity.
Defined.

(** ** Scanning without a panic *)

Lemma returns_ret {A} (a : A) : returns (mret a).
Proof. intros w. now exists a, w. Qed.

Lemma returns_bind {A B} (m : M A) (f : A -> M B) :
  returns m -> (forall a, returns (f a)) -> returns (m ≫= f).
Proof.
  intros Hm Hf w. destruct (Hm w) as (a & w' & Hrun).
  rewrite run_bind, Hrun. apply Hf.
Qed.

Lemma returns_lift_bind {A B} (o : outcome A) (a : A) (f : A -> M B) :
  o = Return a -> returns (f a) -> returns (lift o ≫= f).
Proof. intros -> Hf w. rewrite run_bind. simpl. apply Hf. Qed.

Lemma returns_when (b : bool) (body : M unit) :
  returns body -> returns (when b body).
Proof. intros H. destruct b; [exact H|apply returns_ret]. Qed.

Lemma returns_if_found {A} (call : outcome (A * option error)) (a : A)
    (body : A -> M unit) :
  call = Return (a, None) -> returns (body a) -> returns (if_found call body).
Proof. intros -> H. unfold if_found. eapply returns_lift_bind; eauto. Qed.

Lemma returns_call_by_value (method : M CandleChart) :
  returns method -> returns (call_by_value method).
Proof.
  intros H. unfold call_by_value. apply returns_bind; [exact H|].
  intros _. apply returns_ret.
Qed.

Lemma returns_AddBearishPattern (g : nat -> nat) (cht : CandleChart)
    (anchor : OHLC) (pattern : BearishCandlestickPattern) :
  3 <= ID anchor <= len (Candles cht) -> len (Candles cht) <= max_int ->
  returns (AddBearishPattern g cht anchor pattern).
Proof.
  intros Hid Hlen w.
  destruct (previousCandles_enough cht 3 anchor) as (l & Hl & _); [lia..|].
  unfold AddBearishPattern. rewrite run_bind. simpl. rewrite Hl. simpl.
  match goal with |- context [append ?g ?z ?h ?s ?x] =>
    destruct (append g z h s x) as [h' s'] end.
  eauto.
Qed.

Lemma returns_AddBullishPattern (g : nat -> nat) (cht : CandleChart)
    (anchor : OHLC) (pattern : BullishCandlestickPattern) :
  3 <= ID anchor <= len (Candles cht) -> len (Candles cht) <= max_int ->
  returns (AddBullishPattern g cht anchor pattern).
Proof.
  intros Hid Hlen w.
  destruct (previousCandles_enough cht 3 anchor) as (l & Hl & _); [lia..|].
  unfold AddBullishPattern. rewrite run_bind. simpl. rewrite Hl. simpl.
  match goal with |- context [append ?g ?z ?h ?s ?x] =>
    destruct (append g z h s x) as [h' s'] end.
  eauto.
Qed.

(** Stepping back in an indexed chart, by IDs. *)
Lemma indexed_previousCandle (cht : CandleChart) (c : OHLC) :
  indexed cht -> 0 < ID c <= len (Candles cht) ->
  exists p, previousCandle cht c = Return (p, None) /\ ID p = ID c - 1.
Proof.
  intros [Hlen Hid] Hc.
  destruct (previousCandle_of_chart_candle cht c Hc Hlen) as (p & Hp & Hprev).
  exists p. split; [exact Hprev|]. rewrite (Hid _ _ Hp). lia.
Qed.

Lemma indexed_previousCandles (cht : CandleChart) (n : Z) (c : OHLC) :
  indexed cht -> 0 <= n -> 0 < ID c -> n <= ID c -> ID c <= len (Candles cht) ->
  exists l, previousCandles cht n c = Return (l, None) /\ len l = n /\
    forall i, 0 <= i < n ->
      exists q, l !! Z.to_nat i = Some q /\ ID q = ID c - 1 - i.
Proof.
  intros [Hlen Hid] Hn Hpos Hle Hin.
  destruct (previousCandles_enough cht n c) as (l & Hl & Hlen' & Hnth); [lia..|].
  exists l. split; [exact Hl|]. split; [exact Hlen'|].
  intros i Hi. specialize (Hnth i Hi).
  destruct (lookup_lt_is_Some_2 l (Z.to_nat i)) as [q Hq];
    [unfold len in Hlen'; lia|].
  exists q. split; [exact Hq|]. rewrite Hq in Hnth. symmetry in Hnth.
  rewrite (Hid _ _ Hnth). lia.
Qed.

Section LongChart.
Variable g : nat -> nat.
Variable cht : CandleChart.
Hypothesis Hidx : indexed cht.

Ltac record :=
  apply returns_call_by_value;
  first [apply returns_AddBearishPattern | apply returns_AddBullishPattern];
  [lia | apply Hidx].

Ltac step_back c p Hp :=
  let H := fresh "Hprev" in
  destruct (indexed_previousCandle cht c Hidx ltac:(lia)) as (p & H & Hp);
  eapply returns_if_found; [exact H|].

Ltac look_back n c l Hl Hn :=
  let H := fresh "Hprev" in
  destruct (indexed_previousCandles cht n c Hidx ltac:(lia) ltac:(lia) ltac:(lia) ltac:(lia))
    as (l & H & Hl & Hn);
  eapply returns_if_found; [exact H|].

Ltac pick l i q Hq :=
  let H := fresh "Hpick" in
  match goal with Hn : forall i, 0 <= i < _ -> exists q, l !! Z.to_nat i = Some q /\ _ |- _ =>
    destruct (Hn i ltac:(lia)) as (q & H & Hq) end;
  eapply returns_lift_bind; [apply index_lookup; [lia|exact H]|].

Ltac whens :=
  repeat first
    [ apply returns_when
    | record
    | apply returns_ret
    | apply returns_bind; [|intros _] ].

Lemma bearish_rules_returns (lastCandle : OHLC) :
  7 <= ID lastCandle < len (Candles cht) ->
  returns (bearish_rules g cht lastCandle).
Proof.
  intros Hlast. unfold bearish_rules.
  apply returns_bind; [|intros _; apply returns_bind;
                        [|intros _; apply returns_bind; [|intros _]]].
  - step_back lastCandle p Hp.
    apply returns_bind; [|intros _].
    + apply returns_when. whens.
    + step_back p t Ht. apply returns_when.
      destruct (IsDoji p); whens.
  - look_back 3 lastCandle l Hl Hn. apply returns_when.
    rewrite Hl. change (wrap (3 - 1)) with 2.
    pick l 2 q Hq. step_back q f Hf. whens.
  - look_back 2 lastCandle l Hl Hn. apply returns_when.
    pick l 1 q Hq. step_back q f Hf. whens.
  - look_back 3 lastCandle l Hl Hn. whens.
Qed.

Lemma bullish_rules_returns (lastCandle : OHLC) :
  7 <= ID lastCandle < len (Candles cht) ->
  returns (bullish_rules g cht lastCandle).
Proof.
  intros Hlast. unfold bullish_rules.
  apply returns_bind; [|intros _; apply returns_bind;
                        [|intros _; apply returns_bind; [|intros _]]].
  - step_back lastCandle p Hp.
    apply returns_bind; [|intros _].
    + apply returns_when. whens.
    + step_back p t Ht. apply returns_when.
      destruct (IsDoji p); whens.
  - look_back 3 lastCandle l Hl Hn. apply returns_when.
    rewrite Hl. change (wrap (3 - 1)) with 2.
    pick l 2 q Hq. step_back q f Hf. whens.
  - look_back 2 lastCandle l Hl Hn. apply returns_when.
    pick l 1 q Hq. step_back q f Hf. whens.
  - look_back 3 lastCandle l Hl Hn. whens.
Qed.

Lemma doji_rules_returns (lastCandle : OHLC) :
  7 <= ID lastCandle < len (Candles cht) ->
  returns (doji_rules g cht lastCandle).
Proof.
  intros Hlast. unfold doji_rules.
  apply returns_bind; [|intros _].
  - step_back lastCandle p Hp. whens.
  - step_back lastCandle p Hp. whens.
Qed.
End LongChart.

(** With a window between one candle and the whole chart, [DetectPatterns]
    prints the chart and scans from the last candle of the chart. *)
Lemma DetectPatterns_window (g : nat -> nat) (cht : CandleChart) (w : world) :
  1 <= MaxPatternCandles cht <= len (Candles cht) ->
  len (Candles cht) <= max_int ->
  exists lastCandle,
    Candles cht !! Z.to_nat (len (Candles cht) - 1) = Some lastCandle /\
    run (DetectPatterns g cht) w
    = run ((if IsBearish lastCandle then bearish_rules g cht lastCandle
            else if IsBullish lastCandle then bullish_rules g cht lastCandle
            else mret tt) ;;
           when (IsDoji lastCandle) (doji_rules g cht lastCandle))
        (World (bullish_arrays w) (bearish_arrays w)
           (stdout w ++ [(len (Candles cht), Candles cht)])).
Proof.
  intros Hmax Hlen.
  destruct (lookup_lt_is_Some_2 (Candles cht) (Z.to_nat (len (Candles cht) - 1)))
    as [lastCandle Hlast]; [unfold len in *; lia|].
  exists lastCandle. split; [exact Hlast|].
  set (pc := take (Z.to_nat (len (Candles cht)
                             - (len (Candles cht) - MaxPatternCandles cht)))
               (drop (Z.to_nat (len (Candles cht) - MaxPatternCandles cht))
                  (Candles cht))).
  assert (Hslice : slice_expr (Candles cht)
                     (wrap (len (Candles cht) - MaxPatternCandles cht))
                     (len (Candles cht)) = Return pc).
  { no_wrap. unfold slice_expr.
    destruct (Z.ltb_spec (len (Candles cht) - MaxPatternCandles cht) 0); [lia|].
    destruct (Z.ltb_spec (len (Candles cht))
                (len (Candles cht) - MaxPatternCandles cht)); [lia|].
    reflexivity. }
  assert (Hpc : len pc = MaxPatternCandles cht).
  { unfold pc, len in *. rewrite length_take, length_drop. lia. }
  assert (Hindex : index pc (wrap (len pc - 1)) = Return lastCandle).
  { rewrite Hpc. no_wrap. apply index_lookup; [lia|].
    unfold pc. rewrite lookup_take_lt by lia. rewrite lookup_drop.
    rewrite <- Hlast. f_equal. unfold len in *. lia. }
  unfold DetectPatterns. rewrite run_bind. cbn [run Println].
  rewrite run_bind. cbn [run lift]. rewrite Hslice.
  rewrite run_bind. cbn [run lift]. rewrite Hindex.
  reflexivity.
Qed.

(** X13. On a chart whose candles carry their positions, with at least
    eight candles and a window between one candle and the whole chart,
    [DetectPatterns] never panics: every look-back and every recording it
    can reach has the candles it needs. Seven candles are not enough:
    on [trio_seven] the falling-three rule anchors at candle 2 and the
    recording panics. *)
Theorem DetectPatterns_returns_on_long_charts
    (g : nat -> nat) (cht : CandleChart) (w : world) :
  (indexed cht -> 8 <= len (Candles cht) ->
   1 <= MaxPatternCandles cht <= len (Candles cht) ->
   exists w', run (DetectPatterns g cht) w = (Return tt, w')) /\
  (indexed trio_seven /\ len (Candles trio_seven) = 7 /\
   fst (run (DetectPatterns g trio_seven) fresh_world)
   = Panicked (IndexOutOfRange (-1) 7)).
Proof.
  split.
  - intros Hidx Hlong Hmax.
    destruct (DetectPatterns_window g cht w Hmax (proj1 Hidx))
      as (lastCandle & Hlast & ->).
    assert (Hid : 7 <= ID lastCandle < len (Candles cht)).
    { rewrite (proj2 Hidx _ _ Hlast). lia. }
    match goal with |- context [run ?m ?w0] =>
      assert (Hm : returns m); [|destruct (Hm w0) as ([] & w' & ->); eauto] end.
    apply returns_bind; [|intros _].
    + destruct (IsBearish lastCandle); [now apply bearish_rules_returns|].
      destruct (IsBullish lastCandle);
        [now apply bullish_rules_returns|apply returns_ret].
    + apply returns_when. now apply doji_rules_returns.
  - split; [apply NewCandleChart_indexed; evaluate|].
    split; reflexivity.
Qed.

Lemma DetectPatterns_returns_on_long_charts_witness :
  exists w', run (DetectPatterns doubling trio_eight) fresh_world = (Return tt, w').
Proof.
  assert (Hidx : indexed trio_eight) by (apply NewCandleChart_indexed; evaluate).
  assert (Hlong : 8 <= len (Candles trio_eight)) by evaluate.
  assert (Hmax : 1 <= MaxPatternCandles trio_eight <= len (Candles trio_eight))
    by evaluate.
  exact (proj1 (DetectPatterns_returns_on_long_charts doubling trio_eight
                  fresh_world) Hidx Hlong Hmax).
Defined.

(** ** What the scan reads of the chart *)

Lemma same_runs_refl {A} (m : M A) : same_runs m m.
Proof. now intros w. Qed.

Lemma same_runs_bind {A B} (m m' : M A) (f f' : A -> M B) :
  same_runs m m' -> (forall a, same_runs (f a) (f' a)) -> same_runs (m ≫= f) (m' ≫= f').
Proof.
  intros Hm Hf w. rewrite !run_bind, Hm.
  destruct (run m' w) as [[a|p] w']; [apply Hf|reflexivity].
Qed.

Lemma same_runs_when (b : bool) (body body' : M unit) :
  same_runs body body' -> same_runs (when b body) (when b body').
Proof. intros H. destruct b; [exact H|apply same_runs_refl]. Qed.

Lemma same_runs_if_found {A} (call call' : outcome (A * option error))
    (body body' : A -> M unit) :
  call = call' -> (forall a, same_runs (body a) (body' a)) ->
  same_runs (if_found call body) (if_found call' body').
Proof.
  intros <- H. unfold if_found. apply same_runs_bind; [apply same_runs_refl|].
  intros r. destruct (not_ErrLastCandle (snd r)); [apply H|apply same_runs_refl].
Qed.

Section SameScan.
Variable g : nat -> nat.
Variables cht cht' : CandleChart.
Hypothesis Hcandles : Candles cht = Candles cht'.
Hypothesis Hbullish : BullishPatterns cht = BullishPatterns cht'.
Hypothesis Hbearish : BearishPatterns cht = BearishPatterns cht'.

Lemma previousCandle_same (c : OHLC) :
  previousCandle cht c = previousCandle cht' c.
Proof. unfold previousCandle. now rewrite Hcandles. Qed.

Lemma previousCandles_loop_same (c : OHLC) (k : nat) :
  forall i acc,
    previousCandles_loop cht c i k acc = previousCandles_loop cht' c i k acc.
Proof.
  induction k as [|k IH]; intros i acc; simpl; [reflexivity|].
  rewrite Hcandles.
  destruct (index (Candles cht') (wrap (ID c - i))); simpl; [apply IH|reflexivity].
Qed.

Lemma previousCandles_same (n : Z) (c : OHLC) :
  previousCandles cht n c = previousCandles cht' n c.
Proof. unfold previousCandles. now rewrite previousCandles_loop_same. Qed.

Lemma AddBearishPattern_same (c : OHLC) (p : BearishCandlestickPattern) :
  same_runs (call_by_value (AddBearishPattern g cht c p))
      (call_by_value (AddBearishPattern g cht' c p)).
Proof.
  intros w. unfold call_by_value, AddBearishPattern.
  rewrite !run_bind, previousCandles_same, Hbearish. simpl.
  destruct (previousCandles cht' 3 c) as [[l [[]|]]|]; simpl; try reflexivity.
  match goal with |- context [append ?g ?z ?h ?s ?x] =>
    destruct (append g z h s x) as [h' s'] end.
  reflexivity.
Qed.

Lemma AddBullishPattern_same (c : OHLC) (p : BullishCandlestickPattern) :
  same_runs (call_by_value (AddBullishPattern g cht c p))
      (call_by_value (AddBullishPattern g cht' c p)).
Proof.
  intros w. unfold call_by_value, AddBullishPattern.
  rewrite !run_bind, previousCandles_same, Hbullish. simpl.
  destruct (previousCandles cht' 3 c) as [[l [[]|]]|]; simpl; try reflexivity.
  match goal with |- context [append ?g ?z ?h ?s ?x] =>
    destruct (append g z h s x) as [h' s'] end.
  reflexivity.
Qed.

Ltac same :=
  repeat first
    [ apply same_runs_when
    | apply AddBearishPattern_same
    | apply AddBullishPattern_same
    | apply same_runs_if_found;
        [first [apply previousCandle_same | apply previousCandles_same]|intros ?]
    | match goal with |- same_runs (if ?b then _ else _) (if ?b then _ else _) =>
        destruct b end
    | apply same_runs_refl
    | apply same_runs_bind; [|intros ?] ].

Lemma bearish_rules_same (lastCandle : OHLC) :
  same_runs (bearish_rules g cht lastCandle) (bearish_rules g cht' lastCandle).
Proof. unfold bearish_rules. same. Qed.

Lemma bullish_rules_same (lastCandle : OHLC) :
  same_runs (bullish_rules g cht lastCandle) (bullish_rules g cht' lastCandle).
Proof. unfold bullish_rules. same. Qed.

Lemma doji_rules_same (lastCandle : OHLC) :
  same_runs (doji_rules g cht lastCandle) (doji_rules g cht' lastCandle).
Proof. unfold doji_rules. same. Qed.
End SameScan.

(** X14. [DetectPatterns] reads the candles and the two pattern list
    headers of its chart, and of [MaxPatternCandles] only whether it lies
    between one and the number of candles: two charts with the same
    candles and headers and any two such window sizes end alike and leave
    the same world. The scan starts from the last candle of the chart and
    looks back through the whole chart, whatever the window. *)
Theorem DetectPatterns_window_size_is_no_matter
    (g : nat -> nat) (cht cht' : CandleChart) (w : world) :
  Candles cht = Candles cht' ->
  BullishPatterns cht = BullishPatterns cht' ->
  BearishPatterns cht = BearishPatterns cht' ->
  1 <= MaxPatternCandles cht <= len (Candles cht) ->
  1 <= MaxPatternCandles cht' <= len (Candles cht) ->
  len (Candles cht) <= max_int ->
  run (DetectPatterns g cht) w = run (DetectPatterns g cht') w.
Proof.
  intros Hc Hbu Hbe Hmax Hmax' Hlen.
  destruct (DetectPatterns_window g cht w Hmax Hlen) as (l & Hl & ->).
  rewrite Hc in Hmax', Hlen.
  destruct (DetectPatterns_window g cht' w Hmax' Hlen) as (l' & Hl' & ->).
  rewrite Hc in Hl. rewrite Hl in Hl'. injection Hl' as <-. rewrite Hc.
  apply same_runs_bind; [|intros _].
  - destruct (IsBearish l); [now apply bearish_rules_same|].
    destruct (IsBullish l); [now apply bullish_rules_same|apply same_runs_refl].
  - apply same_runs_when. now apply doji_rules_same.
Qed.

Lemma DetectPatterns_window_size_is_no_matter_witness :
  run (DetectPatterns doubling trio_eight) fresh_world
  = run (DetectPatterns doubling (set_MaxPatternCandles trio_eight 1)) fresh_world.
Proof.
  assert (Hmax : 1 <= MaxPatternCandles trio_eight <= len (Candles trio_eight))
    by evaluate.
  assert (Hmax' : 1 <= MaxPatternCandles (set_MaxPatternCandles trio_eight 1)
                  <= len (Candles trio_eight)) by evaluate.
  assert (Hlen : len (Candles trio_eight) <= max_int) by evaluate.
  exact (DetectPatterns_window_size_is_no_matter doubling trio_eight
           (set_MaxPatternCandles trio_eight 1) fresh_world
           eq_refl eq_refl eq_refl Hmax Hmax' Hlen).
Defined.

(** ** What the scan never records *)

Lemma bullish_arrays_AddBearishPattern (h : arrays BullishChartPattern)
    (growslice : nat -> nat) (cht : CandleChart) (candle : OHLC)
    (pattern : BearishCandlestickPattern) :
  preserves (fun w => bullish_arrays w = h)
    (AddBearishPattern growslice cht candle pattern).
Proof.
  unfold AddBearishPattern. apply preserves_bind; [now apply preserves_lift|].
  intros r. destruct (not_ErrLastCandle (snd r)); [|now apply preserves_ret].
  intros w H. simpl.
  match goal with |- context [append ?g ?z ?h ?s ?x] =>
    destruct (append g z h s x) as [h' s'] end.
  exact H.
Qed.

(** X15. When the scan runs and the last candle of the chart is bearish
    and not a doji, [DetectPatterns] writes no bullish record: the arrays
    of the bullish pattern lists are as before, whatever the rules find. *)
Theorem bearish_scan_writes_no_bullish_record
    (growslice : nat -> nat) (cht : CandleChart) (w : world) (lastCandle : OHLC) :
  1 <= MaxPatternCandles cht <= len (Candles cht) ->
  len (Candles cht) <= max_int ->
  last (Candles cht) = Some lastCandle ->
  IsBearish lastCandle = true -> IsDoji lastCandle = false ->
  bullish_arrays (snd (run (DetectPatterns growslice cht) w)) = bullish_arrays w.
Proof.
  intros Hmax Hlen Hlast Hbear Hdoji.
  destruct (DetectPatterns_window growslice cht w Hmax Hlen) as (l & Hl & ->).
  rewrite last_lookup in Hlast.
  replace (Z.to_nat (len (Candles cht) - 1)) with (pred (length (Candles cht))) in Hl
    by (unfold len; lia).
  rewrite Hl in Hlast. injection Hlast as ->.
  rewrite Hbear, Hdoji.
  match goal with |- context [run ?m ?w0] =>
    apply (fun Hm : preserves (fun w' => bullish_arrays w' = bullish_arrays w) m
           => Hm w0) end; [|reflexivity].
  apply preserves_bind.
  - apply preserves_bearish_rules. intros candle pattern.
    apply bullish_arrays_AddBearishPattern.
  - intros _. now apply preserves_ret.
Qed.

Lemma bearish_scan_writes_no_bullish_record_witness :
  bearish_arrays (snd (run (DetectPatterns doubling trio_eight) fresh_world))
  = [[{| Pattern := BearishFallingThree; PreceedingTrend := Bearish |}]] /\
  bullish_arrays (snd (run (DetectPatterns doubling trio_eight) fresh_world)) = [].
Proof.
  split; [reflexivity|].
  assert (Hmax : 1 <= MaxPatternCandles trio_eight <= len (Candles trio_eight))
    by evaluate.
  assert (Hlen : len (Candles trio_eight) <= max_int) by evaluate.
  exact (bearish_scan_writes_no_bullish_record doubling trio_eight fresh_world
           (set_ID (candle_of [16; 15]%float) 7) Hmax Hlen eq_refl eq_refl eq_refl).
Defined.

Section NeverDetected.
Variable I : world -> Prop.
Hypothesis I_stdout :
  forall w out, I w -> I (World (bullish_arrays w) (bearish_arrays w) out).
Variable growslice : nat -> nat.
Variable cht : CandleChart.
Hypothesis I_bearish :
  forall candle pattern,
    preserves I (AddBearishPattern growslice cht candle pattern).
Hypothesis I_bullish :
  forall candle pattern,
    pattern <> MorningDojiStar -> pattern <> BullishRisingTwo ->
    preserves I (AddBullishPattern growslice cht candle pattern).

Ltac frame :=
  repeat first
    [ apply preserves_ret
    | apply preserves_lift
    | apply I_bearish
    | apply I_bullish; discriminate
    | apply preserves_call_by_value
    | apply preserves_when
    | apply preserves_if_found; intros ?
    | match goal with |- preserves _ (if ?b then _ else _) => destruct b end
    | apply preserves_bind; [|intros ?] ].

Lemma preserves_DetectPatterns_used_patterns :
  preserves I (DetectPatterns growslice cht).
Proof.
  unfold DetectPatterns.
  apply preserves_bind; [now apply preserves_Println|intros _].
  apply preserves_bind; [apply preserves_lift|intros patternCandles].
  apply preserves_bind; [apply preserves_lift|intros lastCandle].
  apply preserves_bind; [|intros _].
  - destruct (IsBearish lastCandle); [now apply preserves_bearish_rules|].
    destruct (IsBullish lastCandle); [|apply preserves_ret].
    unfold bullish_rules. frame.
  - apply preserves_when. unfold doji_rules. frame.
Qed.
End NeverDetected.

(** X16. Whatever the chart, [DetectPatterns] records neither a
    [MorningDojiStar] nor a [BullishRisingTwo]: no rule passes either
    pattern to [AddBullishPattern], so a bullish array holds such a record
    after the call only if it held one before. *)
Theorem DetectPatterns_never_detects_two_bullish_patterns
    (growslice : nat -> nat) (cht : CandleChart) (w : world) :
  no_unused_bullish_pattern w ->
  no_unused_bullish_pattern (snd (run (DetectPatterns growslice cht) w)).
Proof.
  apply preserves_DetectPatterns_used_patterns.
  - intros w0 out H. exact H.
  - intros candle pattern.
    unfold AddBearishPattern. apply preserves_bind; [now apply preserves_lift|].
    intros r. destruct (not_ErrLastCandle (snd r)); [|now apply preserves_ret].
    intros w0 H. simpl.
    match goal with |- context [append ?g ?z ?h ?s ?x] =>
      destruct (append g z h s x) as [h' s'] end.
    exact H.
  - intros candle pattern Hne1 Hne2.
    unfold AddBullishPattern. apply preserves_bind; [now apply preserves_lift|].
    intros r. destruct (not_ErrLastCandle (snd r)); [|now apply preserves_ret].
    intros w0 H. simpl.
    match goal with |- context [append ?g ?z ?h ?s ?x] =>
      pose proof (append_Forall g z
                    (fun r : BullishChartPattern =>
                       Pattern r <> MorningDojiStar /\ Pattern r <> BullishRisingTwo)
                    h s x H) as Hall;
      destruct (append g z h s x) as [h' s'] end.
    apply Hall; [now split|split; discriminate].
Qed.

Lemma DetectPatterns_never_detects_two_bullish_patterns_witness :
  no_unused_bullish_pattern
    (snd (run (DetectPatterns doubling doji_star_six) fresh_world)).
Proof.
  apply (DetectPatterns_never_detects_two_bullish_patterns doubling
           doji_star_six fresh_world).
  constructor.
Defined.
